(** * Interrupt-driven AES-CTR-128 pump of the EFM32GG UART bootloader

    Shallow embedding of
    [code/decryption/aes_ctr_128.c]: the file-scope statics, the interrupt
    handler [AES_IRQHandler], the chunk entry point [AesCtr128] and the
    status probe [AesFinished], over a small model of the machine they
    touch (word memory, the AES peripheral registers, the NVIC enable
    register). *)

From Stdlib Require Import ZArith List Bool Lia.
Import ListNotations.
Local Open Scope Z_scope.

(** ** Machine integers and pointers *)

(** Value kept by a [uint16_t] object after an assignment. *)
Definition uint16 (z : Z) : Z := z mod 2 ^ 16.

(** Value kept by a [uint32_t] object, and by a 32-bit address. *)
Definition uint32 (z : Z) : Z := z mod 2 ^ 32.

(** Modelled from the spec: the endianness transform of section 4.2, which
    the source applies as the CMSIS intrinsic [__REV] (its header is not
    part of the source file): byte reversal of a 32-bit word. *)
Definition __REV (x : Z) : Z :=
  Z.lor (Z.lor (Z.shiftl (Z.land x 255) 24)
               (Z.shiftl (Z.land (Z.shiftr x 8) 255) 16))
        (Z.lor (Z.shiftl (Z.land (Z.shiftr x 16) 255) 8)
               (Z.land (Z.shiftr x 24) 255)).

(** Address of [p[i]] for [uint32_t* p]: 32-bit address arithmetic in
    steps of four bytes. *)
Definition elem (p i : Z) : Z := uint32 (p + 4 * i).

(** Data memory, read and written one 32-bit word at a time (every access
    of the source goes through a [uint32_t*]); keyed by the byte address
    of the word. Each key is a cell of its own, so the model is that of
    the machine for words at 4-byte steps from the bases of buffers that
    are the same or do not meet, which is what [placed] asks for; it says
    nothing true about a word that overlaps another one in part. *)
Definition Memory : Type := Z -> Z.

Definition load (m : Memory) (a : Z) : Z := m a.

Definition store (m : Memory) (a v : Z) : Memory :=
  fun x => if x =? a then v else m x.

(** A 128-bit value as its four 32-bit words, by increasing index. *)
Definition Block : Type := (Z * Z * Z * Z)%type.

Definition load_block (m : Memory) (p : Z) : Block :=
  (load m (elem p 0), load m (elem p 1), load m (elem p 2), load m (elem p 3)).

Definition store_block (m : Memory) (p : Z) (b : Block) : Memory :=
  let '(b0, b1, b2, b3) := b in
  store (store (store (store m (elem p 0) b0) (elem p 1) b1) (elem p 2) b2)
        (elem p 3) b3.

Definition xor_block (a b : Block) : Block :=
  let '(a0, a1, a2, a3) := a in
  let '(b0, b1, b2, b3) := b in
  (Z.lxor a0 b0, Z.lxor a1 b1, Z.lxor a2 b2, Z.lxor a3 b3).

(** The transform that every crossing of the engine boundary applies: the
    loops run from index 3 down to 0 and pass each word through [__REV],
    so the engine sees word 3 first and every word byte-reversed. *)
Definition rev_block (b : Block) : Block :=
  let '(b0, b1, b2, b3) := b in (__REV b3, __REV b2, __REV b1, __REV b0).

Definition block_words (b : Block) : list Z :=
  let '(b0, b1, b2, b3) := b in [b0; b1; b2; b3].

(** [AES_CtrFuncPtr_TypeDef]: pointer to the caller's counter function
    [void f(uint8_t* ctr)], which rewrites the 128-bit counter in place.
    [None] is the null pointer; a function is given by what it does to the
    four words of the counter. *)
Definition AES_CtrFuncPtr_TypeDef : Type := option (Block -> Block).

(** ** The device *)

(** The register constants of [em_device.h] and the block transform of the
    AES engine are not part of the source file: they are parameters.
    [transform key block] is the engine's result for the key and the block
    in the order their words were written; its words are read back first
    to last. *)
Class Device : Type := {
  AES_IFC_DONE : Z;
  AES_IEN_DONE : Z;
  AES_CTRL_KEYBUFEN : Z;
  AES_CTRL_DATASTART : Z;
  AES_IRQn : Z;
  transform : Block -> Block -> Block
}.

(** Modelled from the spec: the BlockEngine of section 6 ([loadKey],
    [submit], [takeOutput], [ackCompletion], [enableCompletionEvent]),
    here the AES peripheral as far as the source drives it; its register
    file [AES_TypeDef] is declared in [em_device.h], which is not part of
    the source file. Four writes to [DATA] submit a block, four writes to
    [KEYHA] load a key, reads of [DATA] take the output of the last
    finished transform word by word, a write to [IFC] clears the flags it
    names. *)
Record AES_TypeDef : Type := mkAES {
  CTRL : Z;
  IEN : Z;
  IF_ : Z;
  KEYH : Block;        (* last four words written to KEYHA, oldest first *)
  DATAW : list Z;      (* words written to DATA, not yet a whole block *)
  busy : option Block; (* block being transformed, completion pending *)
  DATAR : list Z       (* output words still to be read, next one first *)
}.

Definition write_CTRL (v : Z) (e : AES_TypeDef) : AES_TypeDef :=
  mkAES v (IEN e) (IF_ e) (KEYH e) (DATAW e) (busy e) (DATAR e).

Definition write_IEN (v : Z) (e : AES_TypeDef) : AES_TypeDef :=
  mkAES (CTRL e) v (IF_ e) (KEYH e) (DATAW e) (busy e) (DATAR e).

Definition write_IFC (v : Z) (e : AES_TypeDef) : AES_TypeDef :=
  mkAES (CTRL e) (IEN e) (Z.ldiff (IF_ e) v) (KEYH e) (DATAW e) (busy e)
        (DATAR e).

Definition write_KEYHA (v : Z) (e : AES_TypeDef) : AES_TypeDef :=
  let '(_, k1, k2, k3) := KEYH e in
  mkAES (CTRL e) (IEN e) (IF_ e) (k1, k2, k3, v) (DATAW e) (busy e) (DATAR e).

Definition write_DATA (v : Z) (e : AES_TypeDef) : AES_TypeDef :=
  match DATAW e ++ [v] with
  | [a; b; c; d] =>
      mkAES (CTRL e) (IEN e) (IF_ e) (KEYH e) [] (Some (a, b, c, d)) (DATAR e)
  | ws => mkAES (CTRL e) (IEN e) (IF_ e) (KEYH e) ws (busy e) (DATAR e)
  end.

Definition read_DATA (e : AES_TypeDef) : Z * AES_TypeDef :=
  match DATAR e with
  | [] => (0, e)
  | v :: r => (v, mkAES (CTRL e) (IEN e) (IF_ e) (KEYH e) (DATAW e) (busy e) r)
  end.

(** The engine finishes the block it was given: the output becomes
    readable and the DONE flag is raised. Nothing happens when no block is
    pending. *)
Definition engine_done `{Device} (e : AES_TypeDef) : AES_TypeDef :=
  match busy e with
  | Some b =>
      mkAES (CTRL e) (IEN e) (Z.lor (IF_ e) AES_IFC_DONE) (KEYH e) (DATAW e)
            None (block_words (transform (KEYH e) b))
  | None => e
  end.

(** ** Program state *)

(** The seven file-scope statics, the machine state the functions reach,
    and one ghost field: [ctrCalls] counts the calls made through
    [ctrFuncG]. *)
Record World : Type := mkWorld {
  numberOfBlocks : Z;                 (* static uint16_t *)
  blockIndex : Z;                     (* static uint16_t *)
  outputDataG : Z;                    (* static uint32_t* *)
  inputDataG : Z;                     (* static const uint32_t* *)
  ctrG : Z;                           (* static uint32_t* *)
  ctrFuncG : AES_CtrFuncPtr_TypeDef;  (* static AES_CtrFuncPtr_TypeDef *)
  aesFinished : bool;                 (* static volatile bool *)
  mem : Memory;
  AES : AES_TypeDef;
  NVIC_ISER : Z -> Z;
  ctrCalls : nat
}.

Definition set_numberOfBlocks (v : Z) (w : World) : World :=
  mkWorld v (blockIndex w) (outputDataG w) (inputDataG w) (ctrG w)
          (ctrFuncG w) (aesFinished w) (mem w) (AES w) (NVIC_ISER w)
          (ctrCalls w).

Definition set_blockIndex (v : Z) (w : World) : World :=
  mkWorld (numberOfBlocks w) v (outputDataG w) (inputDataG w) (ctrG w)
          (ctrFuncG w) (aesFinished w) (mem w) (AES w) (NVIC_ISER w)
          (ctrCalls w).

Definition set_outputDataG (v : Z) (w : World) : World :=
  mkWorld (numberOfBlocks w) (blockIndex w) v (inputDataG w) (ctrG w)
          (ctrFuncG w) (aesFinished w) (mem w) (AES w) (NVIC_ISER w)
          (ctrCalls w).

Definition set_inputDataG (v : Z) (w : World) : World :=
  mkWorld (numberOfBlocks w) (blockIndex w) (outputDataG w) v (ctrG w)
          (ctrFuncG w) (aesFinished w) (mem w) (AES w) (NVIC_ISER w)
          (ctrCalls w).

Definition set_ctrG (v : Z) (w : World) : World :=
  mkWorld (numberOfBlocks w) (blockIndex w) (outputDataG w) (inputDataG w) v
          (ctrFuncG w) (aesFinished w) (mem w) (AES w) (NVIC_ISER w)
          (ctrCalls w).

Definition set_ctrFuncG (v : AES_CtrFuncPtr_TypeDef) (w : World) : World :=
  mkWorld (numberOfBlocks w) (blockIndex w) (outputDataG w) (inputDataG w)
          (ctrG w) v (aesFinished w) (mem w) (AES w) (NVIC_ISER w)
          (ctrCalls w).

Definition set_aesFinished (v : bool) (w : World) : World :=
  mkWorld (numberOfBlocks w) (blockIndex w) (outputDataG w) (inputDataG w)
          (ctrG w) (ctrFuncG w) v (mem w) (AES w) (NVIC_ISER w) (ctrCalls w).

Definition set_mem (v : Memory) (w : World) : World :=
  mkWorld (numberOfBlocks w) (blockIndex w) (outputDataG w) (inputDataG w)
          (ctrG w) (ctrFuncG w) (aesFinished w) v (AES w) (NVIC_ISER w)
          (ctrCalls w).

Definition set_AES (v : AES_TypeDef) (w : World) : World :=
  mkWorld (numberOfBlocks w) (blockIndex w) (outputDataG w) (inputDataG w)
          (ctrG w) (ctrFuncG w) (aesFinished w) (mem w) v (NVIC_ISER w)
          (ctrCalls w).

Definition set_NVIC_ISER (v : Z -> Z) (w : World) : World :=
  mkWorld (numberOfBlocks w) (blockIndex w) (outputDataG w) (inputDataG w)
          (ctrG w) (ctrFuncG w) (aesFinished w) (mem w) (AES w) v
          (ctrCalls w).

Definition set_ctrCalls (v : nat) (w : World) : World :=
  mkWorld (numberOfBlocks w) (blockIndex w) (outputDataG w) (inputDataG w)
          (ctrG w) (ctrFuncG w) (aesFinished w) (mem w) (AES w) (NVIC_ISER w)
          v.

(** [for (i = 3; i >= 0; i--) body]. *)
Definition for_3_downto_0 {S : Type} (body : Z -> S -> S) (s : S) : S :=
  fold_left (fun s i => body i s) [3; 2; 1; 0] s.

(** [ctrFuncG(ctr8)] with [ctr8 = (uint8_t* ) ctrG]: the call through the
    stored pointer rewrites the sixteen counter bytes; through a null
    pointer it faults. *)
Definition call_ctrFuncG (w : World) : option World :=
  match ctrFuncG w with
  | None => None
  | Some f =>
      Some (set_ctrCalls (S (ctrCalls w))
             (set_mem (store_block (mem w) (ctrG w)
                                   (f (load_block (mem w) (ctrG w)))) w))
  end.

(** [outputDataG[i] = __REV(AES->DATA) ^ inputDataG[i];] *)
Definition combine_word (i : Z) (w : World) : World :=
  let r := read_DATA (AES w) in
  let v := Z.lxor (__REV (fst r)) (load (mem w) (elem (inputDataG w) i)) in
  set_mem (store (mem w) (elem (outputDataG w) i) v) (set_AES (snd r) w).

(** [AES->DATA = __REV(ctrG[i]);] *)
Definition submit_word (i : Z) (w : World) : World :=
  set_AES (write_DATA (__REV (load (mem w) (elem (ctrG w) i))) (AES w)) w.

Section Program.
Context `{Device}.

(** [void AES_IRQHandler(void)]; [None] when the call through [ctrFuncG]
    faults. *)
Definition AES_IRQHandler (w : World) : option World :=
  (* Clear interrupt flag *)
  let w := set_AES (write_IFC AES_IFC_DONE (AES w)) w in
  let branch :=
    if blockIndex w <? numberOfBlocks w then
      match call_ctrFuncG w with
      | None => None
      | Some w =>
          let w := for_3_downto_0 combine_word w in
          let w := set_outputDataG (elem (outputDataG w) 4) w in
          let w := set_inputDataG (elem (inputDataG w) 4) w in
          Some (for_3_downto_0 submit_word w)
      end
    else
      (* Indicate last block *)
      Some (set_aesFinished true w) in
  match branch with
  | None => None
  | Some w => Some (set_blockIndex (uint16 (blockIndex w + 1)) w)
  end.

(** [key32[i]] is read from memory; [AES->KEYHA = __REV(key32[i]);] *)
Definition load_key_word (key : Z) (i : Z) (w : World) : World :=
  set_AES (write_KEYHA (__REV (load (mem w) (elem key i))) (AES w)) w.

(** [NVIC->ISER[n] = v]: a set-enable register, the written ones are added
    to the enabled set. *)
Definition write_ISER (n v : Z) (w : World) : World :=
  set_NVIC_ISER (fun k => if k =? n then Z.lor (NVIC_ISER w n) v
                          else NVIC_ISER w k) w.

(** [void AesCtr128(key, inputData, outputData, blockNumber, ctr, ctrFunc,
    initDecryption)]. *)
Definition AesCtr128 (key inputData outputData blockNumber ctr : Z)
    (ctrFunc : AES_CtrFuncPtr_TypeDef) (initDecryption : bool)
    (w : World) : World :=
  (* Copy to global variables *)
  let w := set_inputDataG inputData w in
  let w := set_outputDataG outputData w in
  let w :=
    if initDecryption then
      let w := set_ctrG ctr w in
      let w := set_ctrFuncG ctrFunc w in
      (* Clear and enable AES interrupt *)
      let w := set_AES (write_IFC AES_IFC_DONE (AES w)) w in
      let w := set_AES (write_IEN AES_IEN_DONE (AES w)) w in
      let w := write_ISER (Z.shiftr (uint32 AES_IRQn) 5)
                 (uint32 (Z.shiftl 1 (Z.land (uint32 AES_IRQn) 31))) w in
      (* Configure AES module *)
      let w := set_AES (write_CTRL
                 (Z.lor AES_CTRL_KEYBUFEN AES_CTRL_DATASTART) (AES w)) w in
      (* Write KEY to AES module *)
      for_3_downto_0 (load_key_word key) w
    else w in
  let w := set_numberOfBlocks (uint16 blockNumber) w in
  (* Reset block index *)
  let w := set_blockIndex 0 w in
  (* Initialize finished flag *)
  let w := set_aesFinished false w in
  (* Load data and trigger encryption using DATA *)
  for_3_downto_0 submit_word w.

(** [bool AesFinished(void)]. *)
Definition AesFinished (w : World) : bool := aesFinished w.

(** One completion event: the engine finishes its pending block, raises
    the interrupt, and the handler runs. *)
Definition completion_event (w : World) : option World :=
  AES_IRQHandler (set_AES (engine_done (AES w)) w).

(** [k] completion events in a row. *)
Fixpoint deliver (k : nat) (w : World) : option World :=
  match k with
  | O => Some w
  | S k' =>
      match completion_event w with
      | None => None
      | Some w' => deliver k' w'
      end
  end.

End Program.

(** The six StreamState fields of the specification, as the statics that
    hold them. *)
Definition StreamState (w : World) : Z * Z * Z * Z * Z * bool :=
  (numberOfBlocks w, blockIndex w, inputDataG w, outputDataG w, ctrG w,
   aesFinished w).

(** ** Definitions used to state the properties *)

(** The four output words of a finished transform, in reading order;
    a missing word reads as 0. *)
Definition take4 (l : list Z) : Block :=
  (nth 0%nat l 0, nth 1%nat l 0, nth 2%nat l 0, nth 3%nat l 0).

(** The engine after four reads of [DATA]. *)
Definition drain (e : AES_TypeDef) : AES_TypeDef :=
  mkAES (CTRL e) (IEN e) (IF_ e) (KEYH e) (DATAW e) (busy e)
        (skipn 4 (DATAR e)).

(** The engine after the loop [AES->DATA = __REV(p[i])], i = 3 .. 0. *)
Definition submit4 (m : Memory) (p : Z) (e : AES_TypeDef) : AES_TypeDef :=
  write_DATA (__REV (load m (elem p 0)))
    (write_DATA (__REV (load m (elem p 1)))
      (write_DATA (__REV (load m (elem p 2)))
        (write_DATA (__REV (load m (elem p 3))) e))).

(** Memory after the loop [out[i] = d_i ^ inp[i]], i = 3 .. 0: each word
    of the input is read when its turn comes, after the stores before
    it. *)
Definition combine_mem (m : Memory) (inp out : Z) (d : Block) : Memory :=
  let '(d0, d1, d2, d3) := d in
  let m := store m (elem out 3) (Z.lxor d3 (load m (elem inp 3))) in
  let m := store m (elem out 2) (Z.lxor d2 (load m (elem inp 2))) in
  let m := store m (elem out 1) (Z.lxor d1 (load m (elem inp 1))) in
  store m (elem out 0) (Z.lxor d0 (load m (elem inp 0))).

(** The keystream block of CTR mode for a counter value: the counter goes
    to the engine reversed, and the result comes back reversed. *)
Definition keystream `{Device} (key ctr : Block) : Block :=
  rev_block (transform key (rev_block ctr)).

(** The [len] bytes at [p] lie inside the 32-bit address space, and so
    does the address one past them. *)
Definition in_space (p len : Z) : Prop := 0 <= p /\ p + len < 2 ^ 32.

(** Two byte ranges do not meet. *)
Definition apart (p plen q qlen : Z) : Prop := p + plen <= q \/ q + qlen <= p.

(** A chunk of [N] blocks is well placed: the buffers and the counter lie
    in the address space, the output is on top of the input or apart from
    it, and the counter is apart from both. *)
Definition placed (inp out c N : Z) : Prop :=
  in_space inp (16 * N) /\ in_space out (16 * N) /\ in_space c 16 /\
  (inp = out \/ apart inp (16 * N) out (16 * N)) /\
  apart c 16 out (16 * N) /\ apart c 16 inp (16 * N).

(** Every word of a block is a 32-bit value. *)
Definition word_block (b : Block) : Prop :=
  let '(b0, b1, b2, b3) := b in
  0 <= b0 < 2 ^ 32 /\ 0 <= b1 < 2 ^ 32 /\ 0 <= b2 < 2 ^ 32 /\
  0 <= b3 < 2 ^ 32.

(** What the block branch does to the statics and the call count. *)
Definition block_step (w w' : World) : Prop :=
  numberOfBlocks w' = numberOfBlocks w /\
  blockIndex w' = uint16 (blockIndex w + 1) /\
  outputDataG w' = elem (outputDataG w) 4 /\
  inputDataG w' = elem (inputDataG w) 4 /\
  ctrG w' = ctrG w /\ ctrFuncG w' = ctrFuncG w /\
  aesFinished w' = aesFinished w /\
  ctrCalls w' = S (ctrCalls w) /\
  NVIC_ISER w' = NVIC_ISER w.

Section ChunkInvariants.
Context `{Device}.
Variables (N inp out c : Z) (f : Block -> Block) (K : Block) (m0 : Memory)
          (calls0 : nat).

(** Counter value after [k] calls of the counter function. *)
Definition ctr_at (k : nat) : Block := Nat.iter k f (load_block m0 c).

(** Statics and counter after [k] blocks. *)
Definition inv_session (k : nat) (w : World) : Prop :=
  numberOfBlocks w = N /\ blockIndex w = Z.of_nat k /\
  outputDataG w = out + 16 * Z.of_nat k /\
  ctrG w = c /\ ctrFuncG w = Some f /\ aesFinished w = false /\
  ctrCalls w = (calls0 + k)%nat /\
  load_block (mem w) c = ctr_at k.

(** The engine after [k] blocks: it works on the current counter value. *)
Definition inv_engine (k : nat) (w : World) : Prop :=
  busy (AES w) = Some (rev_block (ctr_at k)) /\
  KEYH (AES w) = K /\ DATAW (AES w) = [].

(** The buffers after [k] blocks: the first [k] output blocks are
    written, the input blocks from [k] on are as they were. *)
Definition inv_buffers (k : nat) (w : World) : Prop :=
  inputDataG w = inp + 16 * Z.of_nat k /\
  (forall i : nat, (i < k)%nat ->
     load_block (mem w) (out + 16 * Z.of_nat i) =
     xor_block (keystream K (ctr_at i))
               (load_block m0 (inp + 16 * Z.of_nat i))) /\
  (forall i : nat, (k <= i)%nat -> Z.of_nat i < N ->
     load_block (mem w) (inp + 16 * Z.of_nat i) =
     load_block m0 (inp + 16 * Z.of_nat i)).

End ChunkInvariants.

(** ** A concrete device and session, to run the model on *)

Module Sample.

(** Sample register values; the stand-in engine XORs key and block. *)
#[export] Instance device : Device := {|
  AES_IFC_DONE := 1;
  AES_IEN_DONE := 1;
  AES_CTRL_KEYBUFEN := 16;
  AES_CTRL_DATASTART := 32;
  AES_IRQn := 36;
  transform := xor_block
|}.

(** Some memory contents: every word holds a multiple of its address. *)
Definition ram : Memory := fun a => uint32 (a * 2654435761).

(** State after reset: statics zeroed, peripherals idle, no session. *)
Definition reset : World :=
  mkWorld 0 0 0 0 0 None false ram
          (mkAES 0 0 0 (0, 0, 0, 0) [] None []) (fun _ => 0) 0%nat.

(** A counter function: add one to word 3. *)
Definition incr : Block -> Block :=
  fun '(c0, c1, c2, c3) => (c0, c1, c2, uint32 (c3 + 1)).

(** Key at 0x100, input at 0x200, output at 0x400, counter at 0x800. *)
Definition started (blockNumber : Z) : World :=
  AesCtr128 256 512 1024 blockNumber 2048 (Some incr) true reset.

(** A call for 65537 blocks: input at 0x100000, output at 0x300000, each
    with room for all of them, key and counter as before. *)
Definition long_chunk : World :=
  AesCtr128 256 1048576 3145728 65537 2048 (Some incr) true reset.

(** The sample session of two blocks after its three completion events. *)
Definition finished2 : World :=
  match deliver 3 (started 2) with
  | Some w => w
  | None => reset
  end.

(** The same state once the caller has put the first counter value back,
    ready to decrypt what the session encrypted. *)
Definition rewound : World :=
  set_mem (store_block (mem finished2) 2048 (load_block ram 2048)) finished2.

(** The same registers around an engine that echoes its input. *)
Definition echo_device : Device := {|
  AES_IFC_DONE := 1;
  AES_IEN_DONE := 1;
  AES_CTRL_KEYBUFEN := 16;
  AES_CTRL_DATASTART := 32;
  AES_IRQn := 36;
  transform := fun _ b => b
|}.

(** A session of three one-block chunks on the echo engine: the first
    call starts the session, the next two reuse it and pass null for key,
    counter and counter function. Each chunk is given its two completion
    events. The result is the three output blocks. *)
Definition three_chunks : option (Block * Block * Block) :=
  let run := @deliver echo_device 2 in
  match run (@AesCtr128 echo_device 256 512 1024 1 2048 (Some incr) true
                        reset) with
  | None => None
  | Some wa =>
      match run (@AesCtr128 echo_device 0 528 1040 1 0 None false wa) with
      | None => None
      | Some wb =>
          match run (@AesCtr128 echo_device 0 544 1056 1 0 None false wb) with
          | None => None
          | Some wc =>
              Some (load_block (mem wc) 1024, load_block (mem wc) 1040,
                    load_block (mem wc) 1056)
          end
      end
  end.

End Sample.

#[global] Arguments uint16 : simpl never.
#[global] Arguments uint32 : simpl never.
#[global] Arguments elem : simpl never.
#[global] Arguments __REV : simpl never.
#[global] Arguments load : simpl never.
#[global] Arguments store : simpl never.
#[global] Arguments write_DATA : simpl never.
#[global] Arguments read_DATA : simpl never.
#[global] Arguments engine_done : simpl never.

(** * Properties *)

Section Facts.
Context `{Device}.

Lemma some_eq {A : Type} (a b : A) : Some a = Some b -> a = b.
Proof. intros E. injection E as E. exact E. Qed.

(** ** One handler run *)

Lemma write_DATA_config (v : Z) (e : AES_TypeDef) :
  CTRL (write_DATA v e) = CTRL e /\ IEN (write_DATA v e) = IEN e /\
  IF_ (write_DATA v e) = IF_ e /\ KEYH (write_DATA v e) = KEYH e /\
  DATAR (write_DATA v e) = DATAR e.
Proof.
  unfold write_DATA.
  destruct (DATAW e ++ [v]) as [|a [|b [|c [|d [|x l]]]]]; cbn; auto.
Qed.

(** The last-block branch, taken when the index has reached the count. *)
Lemma handler_last (w : World) :
  numberOfBlocks w <= blockIndex w ->
  AES_IRQHandler w =
  Some (set_blockIndex (uint16 (blockIndex w + 1))
         (set_aesFinished true (set_AES (write_IFC AES_IFC_DONE (AES w)) w))).
Proof.
  intros Hle. unfold AES_IRQHandler. cbn.
  destruct (Z.ltb_spec (blockIndex w) (numberOfBlocks w)); [lia | reflexivity].
Qed.

Lemma handler_block (w : World) (f : Block -> Block) :
  blockIndex w < numberOfBlocks w -> ctrFuncG w = Some f ->
  exists w', AES_IRQHandler w = Some w' /\ block_step w w'.
Proof.
  intros Hlt Hf. unfold AES_IRQHandler, call_ctrFuncG. cbn.
  destruct (Z.ltb_spec (blockIndex w) (numberOfBlocks w)); [|lia].
  rewrite Hf. eexists. split; [reflexivity|].
  unfold block_step; cbn. repeat split.
Qed.

Lemma event_last (w : World) :
  numberOfBlocks w <= blockIndex w ->
  completion_event w =
  Some (set_blockIndex (uint16 (blockIndex w + 1))
         (set_aesFinished true
           (set_AES (write_IFC AES_IFC_DONE (engine_done (AES w))) w))).
Proof.
  intros Hle. unfold completion_event. rewrite handler_last by exact Hle.
  reflexivity.
Qed.

Lemma event_block (w : World) (f : Block -> Block) :
  blockIndex w < numberOfBlocks w -> ctrFuncG w = Some f ->
  exists w', completion_event w = Some w' /\ block_step w w'.
Proof.
  intros Hlt Hf. unfold completion_event.
  destruct (handler_block (set_AES (engine_done (AES w)) w) f) as (w' & E & S');
    [exact Hlt | exact Hf | ].
  exists w'. split; [exact E | exact S'].
Qed.

Lemma handler_null (w : World) :
  blockIndex w < numberOfBlocks w -> ctrFuncG w = None ->
  AES_IRQHandler w = None.
Proof.
  intros Hlt Hf. unfold AES_IRQHandler, call_ctrFuncG.
  cbn [blockIndex numberOfBlocks set_AES ctrFuncG].
  destruct (Z.ltb_spec (blockIndex w) (numberOfBlocks w)); [|lia].
  rewrite Hf. reflexivity.
Qed.

(** The finished flag is only ever set by the handler. *)
Lemma event_keeps_finished (w w' : World) :
  completion_event w = Some w' -> aesFinished w = true -> aesFinished w' = true.
Proof.
  intros E Hfin.
  destruct (Z.lt_ge_cases (blockIndex w) (numberOfBlocks w)) as [Hlt | Hge].
  - destruct (ctrFuncG w) as [f|] eqn:Hf.
    + destruct (event_block w f Hlt Hf) as (w2 & E2 & S2).
      rewrite E in E2. injection E2 as <-.
      destruct S2 as (_ & _ & _ & _ & _ & _ & Hk & _). congruence.
    + unfold completion_event in E.
      rewrite handler_null in E; [discriminate | exact Hlt | exact Hf].
  - rewrite event_last in E by exact Hge. injection E as <-. reflexivity.
Qed.

(** ** Runs of completion events *)

Lemma deliver_add (a b : nat) (w : World) :
  deliver (a + b) w =
  match deliver a w with Some w' => deliver b w' | None => None end.
Proof.
  revert w. induction a as [|a IH]; intros w; cbn; [reflexivity|].
  destruct (completion_event w); [apply IH | reflexivity].
Qed.

Lemma deliver_keeps_finished (k : nat) (w w' : World) :
  deliver k w = Some w' -> aesFinished w = true -> aesFinished w' = true.
Proof.
  revert w. induction k as [|k IH]; intros w E Hfin; cbn in E.
  - injection E as <-. exact Hfin.
  - destruct (completion_event w) as [w1|] eqn:E1; [|discriminate].
    apply (IH w1 E). eapply event_keeps_finished; eauto.
Qed.

Lemma uint32_add_l (p a b : Z) : uint32 (uint32 (p + a) + b) = uint32 (p + (a + b)).
Proof.
  unfold uint32. rewrite Zplus_mod_idemp_l. f_equal. lia.
Qed.

(** [k] events that each find work left: the index, the cursors and the
    call count move in step, everything else of the session stands. *)
Lemma deliver_blocks (k : nat) : forall (w : World) (f : Block -> Block),
  ctrFuncG w = Some f ->
  0 <= blockIndex w -> blockIndex w + Z.of_nat k <= numberOfBlocks w ->
  numberOfBlocks w < 2 ^ 16 ->
  exists w', deliver k w = Some w' /\
    numberOfBlocks w' = numberOfBlocks w /\
    blockIndex w' = blockIndex w + Z.of_nat k /\
    uint32 (outputDataG w') = uint32 (outputDataG w + 16 * Z.of_nat k) /\
    uint32 (inputDataG w') = uint32 (inputDataG w + 16 * Z.of_nat k) /\
    ctrG w' = ctrG w /\ ctrFuncG w' = ctrFuncG w /\
    aesFinished w' = aesFinished w /\
    ctrCalls w' = (ctrCalls w + k)%nat.
Proof.
  induction k as [|k IH]; intros w f Hf Hb0 Hbk Hn.
  - exists w. cbn. rewrite !Z.add_0_r, Nat.add_0_r. repeat split.
  - destruct (event_block w f) as (w1 & E1 & S1); [lia | exact Hf |].
    destruct S1 as (Sn & Sb & So & Si & Sc & Sf & Sfin & Scalls & _).
    assert (Hb1 : blockIndex w1 = blockIndex w + 1).
    { rewrite Sb. unfold uint16. apply Z.mod_small. lia. }
    destruct (IH w1 f) as (w' & E & In & Ib & Io & Ii & Ic & If & Ifin & Icalls);
      try lia; try congruence.
    exists w'. cbn [deliver]. rewrite E1. split; [exact E|].
    repeat split; try congruence; try lia.
    + rewrite Io, So. unfold elem. rewrite uint32_add_l. f_equal. lia.
    + rewrite Ii, Si. unfold elem. rewrite uint32_add_l. f_equal. lia.

Qed.

Lemma deliver_prefix (a b : nat) (w w' : World) :
  deliver (a + b) w = Some w' ->
  exists w1, deliver a w = Some w1 /\ deliver b w1 = Some w'.
Proof.
  rewrite deliver_add. destruct (deliver a w) as [w1|]; [|discriminate].
  intros E. exists w1. split; [reflexivity | exact E].
Qed.

(** The same run, read off a successful delivery: no assumption on the
    stored function pointer is needed, a null pointer would have faulted
    at the first event. *)
Lemma deliver_blocks_inv (k : nat) (w w' : World) :
  deliver k w = Some w' ->
  0 <= blockIndex w -> blockIndex w + Z.of_nat k <= numberOfBlocks w ->
  numberOfBlocks w < 2 ^ 16 ->
  numberOfBlocks w' = numberOfBlocks w /\
  blockIndex w' = blockIndex w + Z.of_nat k /\
  uint32 (outputDataG w') = uint32 (outputDataG w + 16 * Z.of_nat k) /\
  uint32 (inputDataG w') = uint32 (inputDataG w + 16 * Z.of_nat k) /\
  ctrG w' = ctrG w /\ ctrFuncG w' = ctrFuncG w /\
  aesFinished w' = aesFinished w /\
  ctrCalls w' = (ctrCalls w + k)%nat.
Proof.
  intros E Hb0 Hbk Hn.
  destruct k as [|k].
  - cbn in E. injection E as <-.
    rewrite !Z.add_0_r, Nat.add_0_r. repeat split.
  - destruct (ctrFuncG w) as [f|] eqn:Hf.
    + destruct (deliver_blocks (S k) w f Hf Hb0 Hbk Hn) as (w2 & E2 & R).
      rewrite E in E2. injection E2 as <-. rewrite Hf in R. exact R.
    + cbn [deliver] in E. unfold completion_event in E.
      rewrite handler_null in E; [discriminate | cbn; lia | exact Hf].
Qed.

Lemma event_index_range (w w' : World) :
  completion_event w = Some w' -> 0 <= blockIndex w' < 2 ^ 16.
Proof.
  intros E.
  assert (R : forall z, 0 <= uint16 z < 2 ^ 16)
    by (intros z; unfold uint16; apply Z.mod_pos_bound; lia).
  destruct (Z.lt_ge_cases (blockIndex w) (numberOfBlocks w)) as [Hlt | Hge].
  - destruct (ctrFuncG w) as [f|] eqn:Hf.
    + destruct (event_block w f Hlt Hf) as (w2 & E2 & S2).
      rewrite E in E2. injection E2 as <-.
      destruct S2 as (_ & -> & _). apply R.
    + unfold completion_event in E.
      rewrite handler_null in E; [discriminate | exact Hlt | exact Hf].
  - rewrite event_last in E by exact Hge. injection E as <-. cbn. apply R.
Qed.

Lemma deliver_index_range (k : nat) (w w' : World) :
  deliver k w = Some w' -> 0 <= blockIndex w < 2 ^ 16 ->
  0 <= blockIndex w' < 2 ^ 16.
Proof.
  revert w. induction k as [|k IH]; intros w E Hr; cbn in E.
  - injection E as <-. exact Hr.
  - destruct (completion_event w) as [w1|] eqn:E1; [|discriminate].
    apply (IH w1 E). eapply event_index_range; eauto.
Qed.

(** Once the index has passed the count, a run of events that is longer
    than the count ends with the flag set. *)
Lemma deliver_past_count (k : nat) (w w' : World) :
  deliver k w = Some w' ->
  blockIndex w = 0 -> 0 <= numberOfBlocks w < 2 ^ 16 ->
  numberOfBlocks w < Z.of_nat k ->
  aesFinished w' = true.
Proof.
  intros E Hb Hn Hk.
  set (n := Z.to_nat (numberOfBlocks w)).
  assert (Hsplit : k = (n + (1 + (k - n - 1)))%nat) by lia.
  rewrite Hsplit in E.
  apply deliver_prefix in E. destruct E as (wn & En & E).
  apply deliver_prefix in E. destruct E as (wf & Ef & E).
  destruct (deliver_blocks_inv n w wn En) as (Rn & Rb & _); try lia.
  cbn [deliver] in Ef. rewrite event_last in Ef by lia.
  injection Ef as <-.
  eapply deliver_keeps_finished; [exact E | reflexivity].
Qed.

(** ** The chunk entry point *)

Lemma for_submit_frame (w : World) :
  let w' := for_3_downto_0 submit_word w in
  numberOfBlocks w' = numberOfBlocks w /\ blockIndex w' = blockIndex w /\
  outputDataG w' = outputDataG w /\ inputDataG w' = inputDataG w /\
  ctrG w' = ctrG w /\ ctrFuncG w' = ctrFuncG w /\
  aesFinished w' = aesFinished w /\ mem w' = mem w /\
  NVIC_ISER w' = NVIC_ISER w /\ ctrCalls w' = ctrCalls w /\
  AES w' =
    write_DATA (__REV (load (mem w) (elem (ctrG w) 0)))
      (write_DATA (__REV (load (mem w) (elem (ctrG w) 1)))
        (write_DATA (__REV (load (mem w) (elem (ctrG w) 2)))
          (write_DATA (__REV (load (mem w) (elem (ctrG w) 3))) (AES w)))).
Proof.
  cbn. repeat split.
Qed.

Lemma AesCtr128_statics key inputData outputData blockNumber ctr ctrFunc
    initDecryption (w : World) :
  let w' := AesCtr128 key inputData outputData blockNumber ctr ctrFunc
              initDecryption w in
  numberOfBlocks w' = uint16 blockNumber /\ blockIndex w' = 0 /\
  inputDataG w' = inputData /\ outputDataG w' = outputData /\
  ctrG w' = (if initDecryption then ctr else ctrG w) /\
  ctrFuncG w' = (if initDecryption then ctrFunc else ctrFuncG w) /\
  aesFinished w' = false /\ mem w' = mem w /\ ctrCalls w' = ctrCalls w.
Proof.
  destruct initDecryption; cbn; repeat split.
Qed.

Lemma uint16_range (z : Z) : 0 <= uint16 z < 2 ^ 16.
Proof. unfold uint16. apply Z.mod_pos_bound. lia. Qed.

Lemma uint16_small (z : Z) : 0 <= z < 2 ^ 16 -> uint16 z = z.
Proof. intros Hz. unfold uint16. apply Z.mod_small. exact Hz. Qed.

Lemma uint32_small (z : Z) : 0 <= z < 2 ^ 32 -> uint32 z = z.
Proof. intros Hz. unfold uint32. apply Z.mod_small. exact Hz. Qed.

Lemma for_combine (w : World) :
  for_3_downto_0 combine_word w =
  set_mem (combine_mem (mem w) (inputDataG w) (outputDataG w)
                       (rev_block (take4 (DATAR (AES w)))))
          (set_AES (drain (AES w)) w).
Proof.
  destruct w as [n b o i c cf fin m e nv calls].
  destruct e as [ct ie fl k dw bs dr].
  destruct dr as [|a [|a1 [|a2 [|a3 l]]]]; reflexivity.
Qed.

Lemma for_submit (w : World) :
  for_3_downto_0 submit_word w = set_AES (submit4 (mem w) (ctrG w) (AES w)) w.
Proof. destruct w; reflexivity. Qed.

Lemma handler_block_exact (w : World) (f : Block -> Block) :
  blockIndex w < numberOfBlocks w -> ctrFuncG w = Some f ->
  exists w', AES_IRQHandler w = Some w' /\ block_step w w' /\
    mem w' =
      combine_mem
        (store_block (mem w) (ctrG w) (f (load_block (mem w) (ctrG w))))
        (inputDataG w) (outputDataG w) (rev_block (take4 (DATAR (AES w)))) /\
    AES w' = submit4 (mem w') (ctrG w) (drain (write_IFC AES_IFC_DONE (AES w))).
Proof.
  intros Hlt Hf. unfold AES_IRQHandler, call_ctrFuncG.
  cbn [blockIndex numberOfBlocks set_AES ctrFuncG].
  destruct (Z.ltb_spec (blockIndex w) (numberOfBlocks w)); [|lia].
  rewrite Hf, for_combine, for_submit.
  eexists. split; [reflexivity|].
  destruct w as [n b o i c cf fin m e nv calls].
  unfold block_step. cbn. repeat split.
Qed.

(** ** Word memory *)

Lemma elem_small (p j : Z) : 0 <= p + 4 * j < 2 ^ 32 -> elem p j = p + 4 * j.
Proof. intros Hr. unfold elem. apply uint32_small. exact Hr. Qed.

Ltac elem_norm :=
  repeat match goal with
  | |- context [elem ?p ?j] => rewrite (elem_small p j) by lia
  end.

Ltac store_cases :=
  unfold load, store;
  repeat match goal with
  | |- context [?a =? ?b] => destruct (Z.eqb_spec a b); try lia
  end.

Lemma load_store_block (m : Memory) (p : Z) (b : Block) :
  in_space p 16 -> load_block (store_block m p b) p = b.
Proof.
  intros [Hp0 Hp1]. destruct b as [[[b0 b1] b2] b3].
  unfold load_block, store_block. elem_norm. store_cases. reflexivity.
Qed.

Lemma load_store_block_apart (m : Memory) (p q : Z) (b : Block) :
  in_space p 16 -> in_space q 16 -> apart q 16 p 16 ->
  load_block (store_block m p b) q = load_block m q.
Proof.
  intros [Hp0 Hp1] [Hq0 Hq1] Hpq. destruct b as [[[b0 b1] b2] b3].
  unfold apart in Hpq.
  unfold load_block, store_block. elem_norm. store_cases. reflexivity.
Qed.

Lemma load_combine_mem (m : Memory) (inp out : Z) (d : Block) :
  in_space inp 16 -> in_space out 16 ->
  inp = out \/ apart inp 16 out 16 ->
  load_block (combine_mem m inp out d) out = xor_block d (load_block m inp).
Proof.
  intros [Hi0 Hi1] [Ho0 Ho1] Hio. destruct d as [[[d0 d1] d2] d3].
  unfold apart in Hio.
  unfold load_block, combine_mem, xor_block. elem_norm. store_cases.
  reflexivity.
Qed.

Lemma load_combine_mem_apart (m : Memory) (inp out q : Z) (d : Block) :
  in_space out 16 -> in_space q 16 -> apart q 16 out 16 ->
  load_block (combine_mem m inp out d) q = load_block m q.
Proof.
  intros [Ho0 Ho1] [Hq0 Hq1] Hqo. destruct d as [[[d0 d1] d2] d3].
  unfold apart in Hqo.
  unfold load_block, combine_mem.
  rewrite !(elem_small out) by lia. rewrite !(elem_small q) by lia.
  store_cases. reflexivity.
Qed.

(** ** The engine across a block *)

Lemma submit4_idle (m : Memory) (p : Z) (e : AES_TypeDef) :
  DATAW e = [] ->
  submit4 m p e =
  mkAES (CTRL e) (IEN e) (IF_ e) (KEYH e) []
        (Some (rev_block (load_block m p))) (DATAR e).
Proof.
  intros Hw. destruct e as [ct ie fl k dw bs dr]. cbn in Hw. subst dw.
  reflexivity.
Qed.

Lemma take4_block_words (b : Block) : take4 (block_words b) = b.
Proof. destruct b as [[[b0 b1] b2] b3]. reflexivity. Qed.

Lemma event_block_exact (w : World) (f : Block -> Block) :
  blockIndex w < numberOfBlocks w -> ctrFuncG w = Some f ->
  exists w', completion_event w = Some w' /\ block_step w w' /\
    mem w' =
      combine_mem
        (store_block (mem w) (ctrG w) (f (load_block (mem w) (ctrG w))))
        (inputDataG w) (outputDataG w)
        (rev_block (take4 (DATAR (engine_done (AES w))))) /\
    AES w' =
      submit4 (mem w') (ctrG w)
              (drain (write_IFC AES_IFC_DONE (engine_done (AES w)))).
Proof.
  intros Hlt Hf. unfold completion_event.
  destruct (handler_block_exact (set_AES (engine_done (AES w)) w) f)
    as (w' & E & S' & M & A); [exact Hlt | exact Hf |].
  exists w'. repeat split; try apply S'; assumption.
Qed.

(** ** Invariants along a run *)

Lemma deliver_invariant (I : nat -> World -> Prop) (n : nat) :
  (forall k w, (k < n)%nat -> I k w ->
     exists w', completion_event w = Some w' /\ I (S k) w') ->
  forall k w, (k <= n)%nat -> I 0%nat w ->
  exists w', deliver k w = Some w' /\ I k w'.
Proof.
  intros Hstep k w. induction k as [|k IH]; intros Hk H0.
  - exists w. split; [reflexivity | exact H0].
  - destruct IH as (wk & Ek & Ik); [lia | exact H0 |].
    destruct (Hstep k wk) as (w' & E' & I'); [lia | exact Ik |].
    exists w'. split; [|exact I'].
    replace (S k) with (k + 1)%nat by lia.
    rewrite deliver_add, Ek. cbn. rewrite E'. reflexivity.
Qed.

Section Chunk.
Variables (N inp out c : Z) (f : Block -> Block) (K : Block) (m0 : Memory)
          (calls0 : nat).

Hypothesis N_range : 0 <= N < 2 ^ 16.
Hypothesis out_space : in_space out (16 * N).
Hypothesis c_space : in_space c 16.
Hypothesis c_out : apart c 16 out (16 * N).

Lemma step_session (k : nat) (w : World) :
  Z.of_nat k < N -> inv_session N out c f m0 calls0 k w ->
  exists w', completion_event w = Some w' /\ inv_session N out c f m0 calls0 (S k) w'.
Proof.
  intros Hk (In & Ib & Io & Ic & If & Ifin & Icalls & Ictr).
  destruct (event_block_exact w f) as (w' & E & S' & M & _); [lia | exact If |].
  destruct S' as (Sn & Sb & So & _ & Sc & Sf & Sfin & Scalls & _).
  exists w'. split; [exact E|].
  destruct out_space as [Ho0 Ho1]. destruct c_space as [Hc0 Hc1].
  unfold apart in c_out.
  unfold inv_session. repeat split; try congruence.
  - rewrite Sb, Ib. rewrite uint16_small by lia. lia.
  - rewrite So, Io. rewrite elem_small by lia. lia.
  - rewrite Scalls, Icalls. lia.
  - rewrite M, Ic, Io.
    rewrite load_combine_mem_apart;
      [| unfold in_space; lia | exact c_space | unfold apart; lia].
    rewrite load_store_block by exact c_space.
    rewrite Ictr. reflexivity.
Qed.

Lemma step_engine (k : nat) (w w' : World) :
  Z.of_nat k < N -> inv_session N out c f m0 calls0 k w -> inv_engine c f K m0 k w ->
  completion_event w = Some w' -> inv_session N out c f m0 calls0 (S k) w' ->
  inv_engine c f K m0 (S k) w' /\
  mem w' =
    combine_mem (store_block (mem w) c (f (ctr_at c f m0 k)))
                (inputDataG w) (out + 16 * Z.of_nat k)
                (keystream K (ctr_at c f m0 k)) /\
  inputDataG w' = elem (inputDataG w) 4.
Proof.
  intros Hk (In & Ib & Io & Ic & If & Ifin & Icalls & Ictr) (Eb & Ek & Ew) E
         (_ & _ & _ & _ & _ & _ & _ & Ictr').
  destruct (event_block_exact w f) as (w2 & E2 & S' & M & A);
    [lia | exact If |].
  rewrite E in E2. injection E2 as <-.
  destruct S' as (_ & _ & _ & Si & _).
  assert (Hdone : engine_done (AES w) =
            mkAES (CTRL (AES w)) (IEN (AES w))
                  (Z.lor (IF_ (AES w)) AES_IFC_DONE) K []
                  None (block_words (transform K (rev_block (ctr_at c f m0 k))))).
  { unfold engine_done. rewrite Eb, Ek, Ew. reflexivity. }
  rewrite Hdone in M, A. cbn [DATAR] in M. rewrite take4_block_words in M.
  rewrite Ic, Io, Ictr in M.
  split; [|split; [exact M | exact Si]].
  rewrite submit4_idle in A by reflexivity.
  unfold inv_engine. rewrite A, Ic. cbn [busy KEYH DATAW].
  rewrite Ictr'. repeat split.
Qed.

Hypothesis inp_space : in_space inp (16 * N).
Hypothesis inp_out : inp = out \/ apart inp (16 * N) out (16 * N).
Hypothesis c_inp : apart c 16 inp (16 * N).

Lemma step_buffers (k : nat) (w w' : World) :
  Z.of_nat k < N -> inv_session N out c f m0 calls0 k w -> inv_engine c f K m0 k w -> inv_buffers N inp out c f K m0 k w ->
  completion_event w = Some w' -> inv_session N out c f m0 calls0 (S k) w' ->
  inv_buffers N inp out c f K m0 (S k) w'.
Proof.
  intros Hk IS IE (Bi & Bout & Bin) E IS'.
  destruct (step_engine k w w' Hk IS IE E IS') as (_ & M & Si).
  destruct out_space as [Ho0 Ho1]. destruct c_space as [Hc0 Hc1].
  destruct inp_space as [Hi0 Hi1].
  unfold apart in c_out, c_inp, inp_out.
  rewrite Bi in M, Si.
  unfold inv_buffers. split; [|split].
  - rewrite Si. rewrite elem_small by lia. lia.
  - intros i Hi. rewrite M.
    destruct (Nat.eq_dec i k) as [-> | Hne].
    + rewrite load_combine_mem;
        [| unfold in_space; lia | unfold in_space; lia | unfold apart; lia].
      rewrite load_store_block_apart;
        [| exact c_space | unfold in_space; lia | unfold apart; lia].
      rewrite Bin by lia. reflexivity.
    + rewrite load_combine_mem_apart;
        [| unfold in_space; lia | unfold in_space; lia | unfold apart; lia].
      rewrite load_store_block_apart;
        [| exact c_space | unfold in_space; lia | unfold apart; lia].
      apply Bout. lia.
  - intros i Hi HiN. rewrite M.
    rewrite load_combine_mem_apart;
      [| unfold in_space; lia | unfold in_space; lia | unfold apart; lia].
    rewrite load_store_block_apart;
      [| exact c_space | unfold in_space; lia | unfold apart; lia].
    apply Bin; lia.
Qed.

End Chunk.

(** ** Whole chunks *)

Lemma run_session N out c f m0 calls0 (w1 : World) :
  0 <= N < 2 ^ 16 -> in_space out (16 * N) -> in_space c 16 ->
  apart c 16 out (16 * N) ->
  inv_session N out c f m0 calls0 0 w1 ->
  forall k : nat, Z.of_nat k <= N ->
  exists w, deliver k w1 = Some w /\ inv_session N out c f m0 calls0 k w.
Proof.
  intros HN Ho Hc Hco I0 k Hk.
  apply (deliver_invariant (inv_session N out c f m0 calls0) (Z.to_nat N));
    [| lia | exact I0].
  intros j w Hj Ij. apply step_session; try assumption. lia.
Qed.

Lemma run_chunk N inp out c f K m0 calls0 (w1 : World) :
  0 <= N < 2 ^ 16 -> in_space out (16 * N) -> in_space c 16 ->
  apart c 16 out (16 * N) -> in_space inp (16 * N) ->
  inp = out \/ apart inp (16 * N) out (16 * N) -> apart c 16 inp (16 * N) ->
  inv_session N out c f m0 calls0 0 w1 ->
  inv_engine c f K m0 0 w1 -> inv_buffers N inp out c f K m0 0 w1 ->
  forall k : nat, Z.of_nat k <= N ->
  exists w, deliver k w1 = Some w /\
    inv_session N out c f m0 calls0 k w /\ inv_engine c f K m0 k w /\
    inv_buffers N inp out c f K m0 k w.
Proof.
  intros HN Ho Hc Hco Hi Hio Hci IS IE IB k Hk.
  apply (deliver_invariant
           (fun k w => inv_session N out c f m0 calls0 k w /\
                       inv_engine c f K m0 k w /\
                       inv_buffers N inp out c f K m0 k w) (Z.to_nat N));
    [| lia | auto].
  intros j w Hj (IS' & IE' & IB').
  destruct (step_session N out c f m0 calls0 HN Ho Hc Hco j w)
    as (w' & E & IS2); [lia | exact IS' |].
  exists w'. split; [exact E|]. split; [exact IS2|]. split.
  - eapply step_engine; eauto. lia.
  - eapply step_buffers; eauto. lia.
Qed.

Lemma AesCtr128_engine key inputData outputData blockNumber ctr ctrFunc
    initDecryption (w : World) :
  let w' := AesCtr128 key inputData outputData blockNumber ctr ctrFunc
              initDecryption w in
  DATAW (AES w) = [] ->
  busy (AES w') = Some (rev_block (load_block (mem w) (ctrG w'))) /\
  DATAW (AES w') = [].
Proof.
  intros w' Hw. subst w'. unfold AesCtr128. rewrite for_submit.
  destruct w as [n b o i c cf fin m e nv calls].
  destruct e as [ct ie fl k dw bs dr]. cbn in Hw. subst dw.
  destruct k as [[[k0 k1] k2] k3].
  destruct initDecryption; cbn; split; reflexivity.
Qed.

(** With [initDecryption] set the key words go to the engine like every
    other block: word 3 first, each word reversed. *)
Lemma AesCtr128_loads_key key inputData outputData blockNumber ctr ctrFunc
    (w : World) :
  KEYH (AES (AesCtr128 key inputData outputData blockNumber ctr ctrFunc
                       true w)) =
  rev_block (load_block (mem w) key).
Proof.
  unfold AesCtr128. rewrite for_submit.
  destruct w as [n b o i c cf fin m e nv calls].
  destruct e as [ct ie fl k dw bs dr].
  destruct k as [[[k0 k1] k2] k3].
  cbn [AES set_AES]. unfold submit4.
  repeat match goal with
  | |- context [KEYH (write_DATA ?v ?e)] =>
      rewrite (proj1 (proj2 (proj2 (proj2 (write_DATA_config v e)))))
  end.
  reflexivity.
Qed.

Lemma AesCtr128_start key inputData outputData blockNumber ctr ctrFunc
    initDecryption (w : World) (f : Block -> Block) :
  let w' := AesCtr128 key inputData outputData blockNumber ctr ctrFunc
              initDecryption w in
  ctrFuncG w' = Some f ->
  inv_session (uint16 blockNumber) outputData (ctrG w') f (mem w)
              (ctrCalls w) 0 w'.
Proof.
  intros w' Hf.
  destruct (AesCtr128_statics key inputData outputData blockNumber ctr ctrFunc
              initDecryption w)
    as (Sn & Sb & Si & So & Sc & Sf & Sfin & Sm & Scalls).
  fold w' in Sn, Sb, Si, So, Sc, Sf, Sfin, Sm, Scalls.
  unfold inv_session, ctr_at. cbn [Nat.iter Z.of_nat].
  rewrite Sm. repeat split; try assumption; try lia.
Qed.

(** The event that finds the index at the count ends the chunk. *)
Lemma finish_chunk N out c f m0 calls0 (w1 wN : World) :
  0 <= N < 2 ^ 16 ->
  deliver (Z.to_nat N) w1 = Some wN ->
  inv_session N out c f m0 calls0 (Z.to_nat N) wN ->
  exists wF, deliver (S (Z.to_nat N)) w1 = Some wF /\
    aesFinished wF = true /\ blockIndex wF = uint16 (N + 1) /\
    numberOfBlocks wF = N /\ mem wF = mem wN /\
    ctrCalls wF = (calls0 + Z.to_nat N)%nat /\
    outputDataG wF = outputDataG wN /\ inputDataG wF = inputDataG wN.
Proof.
  intros HN E (In & Ib & Io & Ic & If & Ifin & Icalls & Ictr).
  eexists. split.
  - replace (S (Z.to_nat N)) with (Z.to_nat N + 1)%nat by lia.
    rewrite deliver_add, E. cbn [deliver].
    rewrite event_last by lia. reflexivity.
  - cbn. rewrite Ib, Icalls. rewrite Z2Nat.id by lia. repeat split; auto.
Qed.

(** ** Chunks over the stored count *)

(** X14. CTR combine over the stored count: let [N] be the block count as
    the chunk holds it, [blockNumber mod 2^16] (so [N = blockNumber] for
    every count up to 65535). For a chunk started with no part of a block
    waiting in the engine's [DATA] input, whose buffers lie in the address
    space, with the output either on top of the input or apart from it and
    the counter apart from both, and every block index [i < N]: the
    counter value submitted to the engine for block [i] is the counter at
    chunk start after [i] calls of the counter function, and from event
    [i + 1] up to the event that ends the chunk, output block [i] is the
    engine's transform of that value, read back word 3 first with every
    word byte-reversed, XORed word by word with input block [i]. *)
Theorem ctr_combine_stored_count key inputData outputData blockNumber ctr
    ctrFunc initDecryption (w0 : World) (f : Block -> Block) (i : nat) :
  let w1 := AesCtr128 key inputData outputData blockNumber ctr ctrFunc
              initDecryption w0 in
  let N := uint16 blockNumber in
  let c := ctrG w1 in
  let ctr_i := Nat.iter i f (load_block (mem w0) c) in
  ctrFuncG w1 = Some f ->
  DATAW (AES w0) = [] ->
  in_space inputData (16 * N) -> in_space outputData (16 * N) ->
  in_space c 16 ->
  inputData = outputData \/ apart inputData (16 * N) outputData (16 * N) ->
  apart c 16 outputData (16 * N) -> apart c 16 inputData (16 * N) ->
  Z.of_nat i < N ->
  (exists wi, deliver i w1 = Some wi /\
     busy (AES wi) = Some (rev_block ctr_i)) /\
  (forall k : nat, (i < k)%nat -> Z.of_nat k <= N + 1 ->
   exists wk, deliver k w1 = Some wk /\
     load_block (mem wk) (outputData + 16 * Z.of_nat i) =
     xor_block (rev_block (transform (KEYH (AES w1)) (rev_block ctr_i)))
               (load_block (mem w0) (inputData + 16 * Z.of_nat i))).
Proof.
  intros w1 N c ctr_i Hf Hw Hi Ho Hc Hio Hco Hci HiN.
  assert (HN : 0 <= N < 2 ^ 16) by apply uint16_range.
  pose proof (AesCtr128_start key inputData outputData blockNumber ctr ctrFunc
                initDecryption w0 f Hf) as IS.
  destruct (AesCtr128_engine key inputData outputData blockNumber ctr ctrFunc
              initDecryption w0 Hw) as (Eb & Ew).
  destruct (AesCtr128_statics key inputData outputData blockNumber ctr ctrFunc
              initDecryption w0) as (_ & _ & Si & _ & _ & _ & _ & Sm & _).
  fold w1 in IS, Eb, Ew, Si, Sm. fold c in IS, Eb. fold N in IS.
  assert (IE : inv_engine c f (KEYH (AES w1)) (mem w0) 0 w1).
  { unfold inv_engine, ctr_at. cbn [Nat.iter]. auto. }
  assert (IB : inv_buffers N inputData outputData c f (KEYH (AES w1)) (mem w0)
                           0 w1).
  { unfold inv_buffers. split; [rewrite Si; cbn; lia|]. split.
    - intros j Hj. lia.
    - intros j _ _. rewrite Sm. reflexivity. }
  pose proof (run_chunk N inputData outputData c f (KEYH (AES w1)) (mem w0)
                (ctrCalls w0) w1 HN Ho Hc Hco Hi Hio Hci IS IE IB) as Run.
  split.
  - destruct (Run i) as (wi & Ei & _ & (Bi & _) & _); [lia|].
    exists wi. split; [exact Ei | exact Bi].
  - intros k Hik HkN.
    destruct (Z.le_gt_cases (Z.of_nat k) N) as [Hle | Hgt].
    + destruct (Run k Hle) as (wk & Ek & _ & _ & (_ & Bout & _)).
      exists wk. split; [exact Ek | apply Bout; exact Hik].
    + assert (Hk : k = S (Z.to_nat N)) by lia.
      destruct (Run (Z.to_nat N)) as (wN & EN & ISN & _ & (_ & Bout & _));
        [lia|].
      destruct (finish_chunk N outputData c f (mem w0) (ctrCalls w0) w1 wN
                  HN EN ISN) as (wF & EF & _ & _ & _ & Mf & _).
      exists wF. rewrite Hk. split; [exact EF|].
      rewrite Mf. apply Bout. lia.
Qed.

(** X15. Counter calls over the stored count: let [N] be the block count
    as the chunk holds it, [blockNumber mod 2^16] (so [N = blockNumber]
    for every count up to 65535). Between the [AesCtr128] call and the chunk
    finishing the counter function is called exactly [N] times: after
    [k <= N] events the chunk is unfinished with [k] calls made, the
    [N + 1]-th event finishes it without a further call, and then the
    counter holds [N] successive applications of the counter function to
    its value at chunk start (the counter lying apart from the output
    buffer). *)
Theorem counter_calls_stored_count key inputData outputData blockNumber ctr
    ctrFunc initDecryption (w0 : World) (f : Block -> Block) :
  let w1 := AesCtr128 key inputData outputData blockNumber ctr ctrFunc
              initDecryption w0 in
  let N := uint16 blockNumber in
  let c := ctrG w1 in
  ctrFuncG w1 = Some f ->
  in_space outputData (16 * N) -> in_space c 16 ->
  apart c 16 outputData (16 * N) ->
  (forall k : nat, Z.of_nat k <= N ->
   exists w, deliver k w1 = Some w /\ AesFinished w = false /\
     ctrCalls w = (ctrCalls w0 + k)%nat /\
     load_block (mem w) c = Nat.iter k f (load_block (mem w0) c)) /\
  (exists wF, deliver (S (Z.to_nat N)) w1 = Some wF /\
     AesFinished wF = true /\
     ctrCalls wF = (ctrCalls w0 + Z.to_nat N)%nat /\
     load_block (mem wF) c = Nat.iter (Z.to_nat N) f (load_block (mem w0) c)).
Proof.
  intros w1 N c Hf Ho Hc Hco.
  assert (HN : 0 <= N < 2 ^ 16) by apply uint16_range.
  pose proof (AesCtr128_start key inputData outputData blockNumber ctr ctrFunc
                initDecryption w0 f Hf) as IS.
  fold w1 in IS. fold c in IS. fold N in IS.
  pose proof (run_session N outputData c f (mem w0) (ctrCalls w0) w1
                HN Ho Hc Hco IS) as Run.
  split.
  - intros k Hk. destruct (Run k Hk) as (w & E & I).
    destruct I as (_ & _ & _ & _ & _ & Ifin & Icalls & Ictr).
    exists w. repeat split; assumption.
  - destruct (Run (Z.to_nat N)) as (wN & EN & ISN); [lia|].
    destruct (finish_chunk N outputData c f (mem w0) (ctrCalls w0) w1 wN
                HN EN ISN) as (wF & EF & Ffin & _ & _ & Fm & Fcalls & _).
    destruct ISN as (_ & _ & _ & _ & _ & _ & _ & Ictr).
    exists wF. rewrite Fm. repeat split; assumption.
Qed.

(** ** The claims *)

(** C2 (amended). Completion count: for every block count from 1 to
    65535, after exactly [blockNumber] completion events following one
    [AesCtr128] call [blockIndex] equals [blockNumber] and [AesFinished]
    still returns false, as it does after any smaller number of events;
    one further event, the [blockNumber + 1]-th, makes [AesFinished]
    return true and leaves [blockIndex] at [blockNumber + 1] as a
    [uint16_t]. *)
Theorem C2_completion_count key inputData outputData blockNumber ctr ctrFunc
    initDecryption (w0 : World) (f : Block -> Block) :
  let w1 := AesCtr128 key inputData outputData blockNumber ctr ctrFunc
              initDecryption w0 in
  1 <= blockNumber <= 65535 ->
  ctrFuncG w1 = Some f ->
  (forall k : nat, Z.of_nat k <= blockNumber ->
   exists w, deliver k w1 = Some w /\ AesFinished w = false /\
             blockIndex w = Z.of_nat k) /\
  (exists w, deliver (Z.to_nat blockNumber) w1 = Some w /\
             AesFinished w = false /\ blockIndex w = blockNumber) /\
  (exists w, deliver (S (Z.to_nat blockNumber)) w1 = Some w /\
             AesFinished w = true /\ blockIndex w = uint16 (blockNumber + 1)).
Proof.
  intros w1 Hbn Hf.
  destruct (AesCtr128_statics key inputData outputData blockNumber ctr ctrFunc
              initDecryption w0)
    as (Sn & Sb & _ & _ & _ & _ & Sfin & _).
  fold w1 in Sn, Sb, Sfin.
  rewrite uint16_small in Sn by lia.
  assert (Run : forall k : nat, Z.of_nat k <= blockNumber ->
            exists w, deliver k w1 = Some w /\ AesFinished w = false /\
                      blockIndex w = Z.of_nat k /\
                      numberOfBlocks w = blockNumber).
  { intros k Hk.
    destruct (deliver_blocks k w1 f Hf) as (w & E & Rn & Rb & _ & _ & _ & _ & Rfin & _);
      try lia.
    exists w. unfold AesFinished. repeat split; try congruence; lia. }
  split; [|split].
  - intros k Hk. destruct (Run k Hk) as (w & E & Hfin & Hb & _). eauto.
  - destruct (Run (Z.to_nat blockNumber)) as (w & E & Hfin & Hb & _); [lia|].
    exists w. repeat split; auto. lia.
  - destruct (Run (Z.to_nat blockNumber)) as (w & E & Hfin & Hb & Hn); [lia|].
    eexists. split.
    + replace (S (Z.to_nat blockNumber)) with (Z.to_nat blockNumber + 1)%nat
        by lia.
      rewrite deliver_add, E. cbn [deliver].
      rewrite event_last by lia. reflexivity.
    + cbn. split; [reflexivity|]. f_equal. lia.
Qed.

(** Every handler run increments the index as a [uint16_t] and keeps the
    count. *)
Lemma event_index_step (w w' : World) :
  completion_event w = Some w' ->
  blockIndex w' = uint16 (blockIndex w + 1) /\
  numberOfBlocks w' = numberOfBlocks w.
Proof.
  intros E.
  destruct (Z.lt_ge_cases (blockIndex w) (numberOfBlocks w)) as [Hlt | Hge].
  - destruct (ctrFuncG w) as [f|] eqn:Hf.
    + destruct (event_block w f Hlt Hf) as (w2 & E2 & S2).
      rewrite E in E2. injection E2 as <-.
      destruct S2 as (Sn & Sb & _). split; assumption.
    + unfold completion_event in E.
      rewrite handler_null in E; [discriminate | exact Hlt | exact Hf].
  - rewrite event_last in E by exact Hge. injection E as <-.
    split; reflexivity.
Qed.

Lemma deliver_index (k : nat) : forall w w' : World,
  deliver k w = Some w' -> 0 <= blockIndex w < 2 ^ 16 ->
  blockIndex w' = uint16 (blockIndex w + Z.of_nat k) /\
  numberOfBlocks w' = numberOfBlocks w.
Proof.
  induction k as [|k IH]; intros w w' E Hr.
  - cbn [deliver] in E. injection E as <-.
    rewrite Z.add_0_r, uint16_small by exact Hr. split; reflexivity.
  - cbn [deliver] in E.
    destruct (completion_event w) as [w1|] eqn:E1; [|discriminate].
    destruct (event_index_step w w1 E1) as (Sb & Sn).
    destruct (IH w1 w' E) as (Ib & In).
    { rewrite Sb. apply uint16_range. }
    split; [|congruence].
    rewrite Ib, Sb. unfold uint16. rewrite Zplus_mod_idemp_l. f_equal. lia.
Qed.

Lemma busy_engine_done (e : AES_TypeDef) : busy (engine_done e) = None.
Proof.
  unfold engine_done. destruct (busy e) eqn:Hb; [reflexivity | exact Hb].
Qed.

(** While events find work left, the index counts them and both cursors
    stand that many blocks past their bases. *)
Lemma stream_unfinished (inputData outputData : Z) (w1 w : World) (k : nat) :
  0 <= numberOfBlocks w1 < 2 ^ 16 -> blockIndex w1 = 0 ->
  inputDataG w1 = inputData -> outputDataG w1 = outputData ->
  0 <= inputData < 2 ^ 32 -> 0 <= outputData < 2 ^ 32 ->
  deliver k w1 = Some w ->
  Z.of_nat k <= numberOfBlocks w1 ->
  numberOfBlocks w = numberOfBlocks w1 /\
  aesFinished w = aesFinished w1 /\
  blockIndex w = Z.of_nat k /\
  inputDataG w = elem inputData (4 * Z.of_nat k) /\
  outputDataG w = elem outputData (4 * Z.of_nat k).
Proof.
  intros HN Sb Si So Hi Ho E Hle.
  destruct (deliver_blocks_inv k w1 w E)
    as (Rn & Rb & Rout & Rin & _ & _ & Rfin & _); try lia.
  rewrite Sb in Rb. cbn in Rb.
  assert (Hstep : forall p q, 0 <= q < 2 ^ 32 ->
            uint32 q = uint32 (p + 16 * Z.of_nat k) ->
            q = elem p (4 * Z.of_nat k)).
  { intros p q Hq Heq. rewrite uint32_small in Heq by exact Hq.
    rewrite Heq. unfold elem. f_equal. lia. }
  assert (Hcur : 0 <= inputDataG w < 2 ^ 32 /\ 0 <= outputDataG w < 2 ^ 32).
  { destruct k as [|k].
    - cbn [deliver] in E. injection E as E'. subst w.
      rewrite Si, So. split; assumption.
    - replace (S k) with (k + 1)%nat in E by lia.
      apply deliver_prefix in E. destruct E as (wk & Ek & E1).
      cbn [deliver] in E1.
      destruct (completion_event wk) as [w2|] eqn:E2; [|discriminate].
      injection E1 as <-.
      destruct (deliver_blocks_inv k w1 wk Ek)
        as (Kn & Kb & _ & _ & _ & Kf & _); try lia.
      destruct (ctrFuncG wk) as [g|] eqn:Hg.
      + destruct (event_block wk g) as (w3 & E3 & S3); [lia | exact Hg |].
        rewrite E2 in E3. injection E3 as <-.
        destruct S3 as (_ & _ & -> & -> & _).
        unfold elem, uint32. split; apply Z.mod_pos_bound; lia.
      + unfold completion_event in E2.
        rewrite handler_null in E2; [discriminate | cbn; lia | exact Hg]. }
  split; [exact Rn|]. split; [exact Rfin|]. split; [exact Rb|]. split.
  - apply Hstep; [apply Hcur | rewrite Rin, Si; reflexivity].
  - apply Hstep; [apply Hcur | rewrite Rout, So; reflexivity].
Qed.

(** The states of a chunk, from any state a call can leave. *)
Lemma stream_states (inputData outputData : Z) (w1 w : World) (k : nat) :
  let N := numberOfBlocks w in
  0 <= numberOfBlocks w1 < 2 ^ 16 -> blockIndex w1 = 0 ->
  aesFinished w1 = false ->
  inputDataG w1 = inputData -> outputDataG w1 = outputData ->
  0 <= inputData < 2 ^ 32 -> 0 <= outputData < 2 ^ 32 ->
  deliver k w1 = Some w ->
  N = numberOfBlocks w1 /\
  0 <= blockIndex w < 2 ^ 16 /\
  blockIndex w = uint16 (Z.of_nat k) /\
  aesFinished w = (N <? Z.of_nat k) /\
  (aesFinished w = false ->
   blockIndex w = Z.of_nat k /\
   blockIndex w <= N /\
   inputDataG w = elem inputData (4 * blockIndex w) /\
   outputDataG w = elem outputData (4 * blockIndex w)) /\
  (Z.of_nat k <= N + 1 -> 0 <= blockIndex w <= N + 1) /\
  (Z.of_nat k = N + 1 ->
   aesFinished w = true /\ busy (AES w) = None /\
   (N < 65535 -> blockIndex w = N + 1) /\
   (N = 65535 -> blockIndex w = 0) /\
   inputDataG w = elem inputData (4 * N) /\
   outputDataG w = elem outputData (4 * N)).
Proof.
  intros N HN Sb Sfin Si So Hi Ho E.
  destruct (deliver_index k w1 w E) as (Ib & In); [rewrite Sb; lia|].
  rewrite Sb, Z.add_0_l in Ib.
  assert (Hfin : aesFinished w = (N <? Z.of_nat k)).
  { subst N. rewrite In.
    destruct (Z.ltb_spec (numberOfBlocks w1) (Z.of_nat k)) as [Hlt | Hge].
    - apply (deliver_past_count k w1 w E); [exact Sb | exact HN | exact Hlt].
    - destruct (stream_unfinished inputData outputData w1 w k)
        as (_ & Rf & _); try assumption.
      congruence. }
  assert (Hwrap : uint16 65536 = 0) by reflexivity.
  split; [exact In|]. split; [rewrite Ib; apply uint16_range|].
  split; [exact Ib|]. split; [exact Hfin|]. split; [|split].
  - intros Hf. rewrite Hfin in Hf. apply Z.ltb_ge in Hf.
    destruct (stream_unfinished inputData outputData w1 w k)
      as (_ & _ & Rb & Rin & Rout); try assumption.
    { subst N. lia. }
    rewrite Rb. split; [reflexivity|]. split; [exact Hf|].
    split; assumption.
  - intros Hk. rewrite Ib.
    destruct (Z.eq_dec (Z.of_nat k) 65536) as [Hw | Hw].
    + rewrite Hw, Hwrap. subst N. lia.
    + rewrite uint16_small by (subst N; lia). lia.
  - intros Hk.
    split; [rewrite Hfin; apply Z.ltb_lt; lia|].
    assert (Hsplit : k = (Z.to_nat (numberOfBlocks w1) + 1)%nat)
      by (subst N; lia).
    pose proof E as E'. rewrite Hsplit in E'.
    apply deliver_prefix in E'. destruct E' as (wN & EN & E1).
    destruct (stream_unfinished inputData outputData w1 wN
                (Z.to_nat (numberOfBlocks w1)))
      as (Rn & _ & Rb & Rin & Rout); try assumption; [lia|].
    rewrite Z2Nat.id in Rb, Rin, Rout by lia.
    cbn [deliver] in E1. rewrite event_last in E1 by lia.
    apply some_eq in E1.
    assert (Hbusy : busy (AES w) = None).
    { rewrite <- E1. cbn [AES set_blockIndex set_aesFinished set_AES busy
                          write_IFC].
      apply busy_engine_done. }
    assert (Hin : inputDataG w = inputDataG wN) by (rewrite <- E1; reflexivity).
    assert (Hout : outputDataG w = outputDataG wN)
      by (rewrite <- E1; reflexivity).
    split; [exact Hbusy|]. split; [|split; [|split]].
    + intros Hlt. rewrite Ib, uint16_small by (subst N; lia). exact Hk.
    + intros H65. rewrite Ib, Hk, H65. exact Hwrap.
    + rewrite Hin, Rin. subst N. rewrite In. reflexivity.
    + rewrite Hout, Rout. subst N. rewrite In. reflexivity.
Qed.

(** C4 (amended). StreamState invariant: in the state reached from one
    [AesCtr128] call by [k] completion events, [numberOfBlocks] is the
    count the call stored, [blockIndex] is [k] as a [uint16_t], and
    [aesFinished] is true exactly when [k] exceeds [numberOfBlocks]. While
    [aesFinished] is false, [blockIndex] is [k], at most [numberOfBlocks],
    and both cursors stand [blockIndex] blocks of four words past their
    chunk base. Up to and including the event that sets [aesFinished],
    event [numberOfBlocks + 1], [0 <= blockIndex <= numberOfBlocks + 1].
    That event leaves [blockIndex] at [numberOfBlocks + 1], one past the
    count, for every count below 65535, and at 0 for the count 65535; it
    leaves the cursors [numberOfBlocks] blocks past their bases and the
    engine with no block pending, so that the engine raises no further
    completion. *)
Theorem C4_stream_invariant key inputData outputData blockNumber ctr ctrFunc
    initDecryption (w0 w : World) (k : nat) :
  let w1 := AesCtr128 key inputData outputData blockNumber ctr ctrFunc
              initDecryption w0 in
  let N := numberOfBlocks w in
  0 <= inputData < 2 ^ 32 -> 0 <= outputData < 2 ^ 32 ->
  deliver k w1 = Some w ->
  N = uint16 blockNumber /\
  0 <= blockIndex w < 2 ^ 16 /\
  blockIndex w = uint16 (Z.of_nat k) /\
  aesFinished w = (N <? Z.of_nat k) /\
  (aesFinished w = false ->
   blockIndex w = Z.of_nat k /\
   blockIndex w <= N /\
   inputDataG w = elem inputData (4 * blockIndex w) /\
   outputDataG w = elem outputData (4 * blockIndex w)) /\
  (Z.of_nat k <= N + 1 -> 0 <= blockIndex w <= N + 1) /\
  (Z.of_nat k = N + 1 ->
   aesFinished w = true /\ busy (AES w) = None /\
   (N < 65535 -> blockIndex w = N + 1) /\
   (N = 65535 -> blockIndex w = 0) /\
   inputDataG w = elem inputData (4 * N) /\
   outputDataG w = elem outputData (4 * N)).
Proof.
  intros w1 N Hi Ho E.
  destruct (AesCtr128_statics key inputData outputData blockNumber ctr ctrFunc
              initDecryption w0)
    as (Sn & Sb & Si & So & _ & _ & Sfin & _).
  fold w1 in Sn, Sb, Si, So, Sfin.
  pose proof (uint16_range blockNumber) as HN. rewrite <- Sn in HN.
  clearbody w1.
  destruct (stream_states inputData outputData w1 w k HN Sb Sfin Si So Hi Ho E)
    as (Rn & R).
  fold N in Rn, R. split; [congruence | exact R].
Qed.

(** C5. Final-event frame: when the handler fires with
    [blockIndex >= numberOfBlocks] it acknowledges the interrupt, sets
    [aesFinished] and increments [blockIndex]; the counter pointer and
    function, both cursors, the whole memory (counter value and output
    buffer included), the call count and the engine's key, input,
    pending-work and output state are as before: no call through
    [ctrFuncG], no new submission. *)
Theorem C5_final_event_frame (w : World) :
  numberOfBlocks w <= blockIndex w ->
  AES_IRQHandler w =
  Some (mkWorld (numberOfBlocks w) (uint16 (blockIndex w + 1))
          (outputDataG w) (inputDataG w) (ctrG w) (ctrFuncG w) true (mem w)
          (mkAES (CTRL (AES w)) (IEN (AES w))
                 (Z.ldiff (IF_ (AES w)) AES_IFC_DONE) (KEYH (AES w))
                 (DATAW (AES w)) (busy (AES w)) (DATAR (AES w)))
          (NVIC_ISER w) (ctrCalls w)).
Proof.
  intros Hge. rewrite handler_last by exact Hge. reflexivity.
Qed.

Lemma submit4_config (m : Memory) (p : Z) (e : AES_TypeDef) :
  CTRL (submit4 m p e) = CTRL e /\ IEN (submit4 m p e) = IEN e /\
  IF_ (submit4 m p e) = IF_ e /\ KEYH (submit4 m p e) = KEYH e /\
  DATAR (submit4 m p e) = DATAR e.
Proof.
  unfold submit4.
  set (e1 := write_DATA (__REV (load m (elem p 3))) e).
  set (e2 := write_DATA (__REV (load m (elem p 2))) e1).
  set (e3 := write_DATA (__REV (load m (elem p 1))) e2).
  destruct (write_DATA_config (__REV (load m (elem p 3))) e)
    as (A1 & A2 & A3 & A4 & A5).
  destruct (write_DATA_config (__REV (load m (elem p 2))) e1)
    as (B1 & B2 & B3 & B4 & B5).
  destruct (write_DATA_config (__REV (load m (elem p 1))) e2)
    as (G1 & G2 & G3 & G4 & G5).
  destruct (write_DATA_config (__REV (load m (elem p 0))) e3)
    as (D1 & D2 & D3 & D4 & D5).
  fold e1 in A1, A2, A3, A4, A5. fold e2 in B1, B2, B3, B4, B5.
  fold e3 in G1, G2, G3, G4, G5.
  repeat split; congruence.
Qed.

(** C6. Session-reuse frame: a call of [AesCtr128] with [initDecryption]
    false stores the two buffer bases and the block count, resets
    [blockIndex] to 0 and [aesFinished] to false and writes the four
    words of the current counter to [DATA]; the counter pointer and
    function, the memory (so the counter value), the NVIC enable register
    and the engine's key, control, interrupt-enable and flag registers are
    as before. *)
Theorem C6_session_reuse_frame key inputData outputData blockNumber ctr
    ctrFunc (w : World) :
  let w' := AesCtr128 key inputData outputData blockNumber ctr ctrFunc
              false w in
  w' = mkWorld (uint16 blockNumber) 0 outputData inputData (ctrG w)
               (ctrFuncG w) false (mem w)
               (submit4 (mem w) (ctrG w) (AES w)) (NVIC_ISER w)
               (ctrCalls w) /\
  KEYH (AES w') = KEYH (AES w) /\ CTRL (AES w') = CTRL (AES w) /\
  IEN (AES w') = IEN (AES w) /\ IF_ (AES w') = IF_ (AES w) /\
  load_block (mem w') (ctrG w') = load_block (mem w) (ctrG w).
Proof.
  intros w'.
  assert (Hw : w' = mkWorld (uint16 blockNumber) 0 outputData inputData
                     (ctrG w) (ctrFuncG w) false (mem w)
                     (submit4 (mem w) (ctrG w) (AES w)) (NVIC_ISER w)
                     (ctrCalls w)).
  { subst w'. unfold AesCtr128. rewrite for_submit. reflexivity. }
  split; [exact Hw|]. rewrite Hw. cbn [AES mem ctrG].
  destruct (submit4_config (mem w) (ctrG w) (AES w))
    as (Q1 & Q2 & Q3 & Q4 & _).
  auto.
Qed.

(** A chunk of no blocks: every event takes the last-block branch. *)
Lemma deliver_idle (j : nat) : forall w : World,
  numberOfBlocks w = 0 -> 0 <= blockIndex w ->
  exists w', deliver j w = Some w' /\
    ((1 <= j)%nat -> aesFinished w' = true) /\
    ctrCalls w' = ctrCalls w /\ mem w' = mem w /\ ctrG w' = ctrG w.
Proof.
  induction j as [|j IH]; intros w Hn Hb.
  - exists w. cbn [deliver]. repeat split. lia.
  - cbn [deliver]. rewrite event_last by lia.
    set (w2 := set_blockIndex _ _).
    destruct (IH w2) as (w' & E & _ & Cj & Mj & Gj).
    + exact Hn.
    + subst w2. cbn. pose proof (uint16_range (blockIndex w + 1)). lia.
    + exists w'. split; [exact E|]. split; [|auto].
      intros _. apply (deliver_keeps_finished j w2 w' E). reflexivity.
Qed.

Lemma write_IFC_idem (v : Z) (e : AES_TypeDef) :
  write_IFC v (write_IFC v e) = write_IFC v e.
Proof.
  unfold write_IFC. cbn. f_equal.
  apply Z.bits_inj'. intros n Hn. rewrite !Z.ldiff_spec.
  destruct (Z.testbit (IF_ e) n), (Z.testbit v n); reflexivity.
Qed.

Lemma engine_done_idle (e : AES_TypeDef) : busy e = None -> engine_done e = e.
Proof. intros Hb. unfold engine_done. rewrite Hb. reflexivity. Qed.

(** In a chunk of no blocks the engine is touched by the first event
    only: it finishes what was pending and the flag is acknowledged. *)
Lemma deliver_idle_engine (j : nat) : forall w : World,
  numberOfBlocks w = 0 -> 0 <= blockIndex w ->
  exists w', deliver (S j) w = Some w' /\
    AES w' = write_IFC AES_IFC_DONE (engine_done (AES w)).
Proof.
  induction j as [|j IH]; intros w Hn Hb.
  - cbn [deliver]. rewrite event_last by lia.
    eexists. split; reflexivity.
  - change (deliver (S (S j)) w) with (deliver (1 + S j) w).
    rewrite deliver_add.
    change (deliver 1 w) with
      (match completion_event w with
       | Some w' => Some w' | None => None end).
    rewrite event_last by lia.
    set (w2 := set_blockIndex _ _).
    destruct (IH w2) as (w' & E & A).
    + exact Hn.
    + subst w2. cbn. pose proof (uint16_range (blockIndex w + 1)). lia.
    + exists w'. split; [exact E|]. rewrite A. subst w2.
      cbn [AES set_blockIndex set_aesFinished set_AES].
      rewrite engine_done_idle
        by (cbn [busy write_IFC]; apply busy_engine_done).
      apply write_IFC_idem.
Qed.

(** A chunk of no blocks, from any state a call can leave. *)
Lemma zero_block_run (w1 : World) (k : nat) :
  numberOfBlocks w1 = 0 -> blockIndex w1 = 0 -> (1 <= k)%nat ->
  exists w, deliver k w1 = Some w /\ aesFinished w = true /\
    ctrCalls w = ctrCalls w1 /\ mem w = mem w1 /\ ctrG w = ctrG w1 /\
    busy (AES w) = None /\
    forall b : Block, busy (AES w1) = Some b ->
      DATAR (AES w) = block_words (transform (KEYH (AES w1)) b).
Proof.
  intros Sn Sb Hk.
  destruct (deliver_idle k w1) as (w & E & Hfin & Cw & Mw & Gw);
    [exact Sn | lia |].
  destruct (deliver_idle_engine (k - 1) w1) as (w' & E' & A);
    [exact Sn | lia |].
  replace (S (k - 1)) with k in E' by lia.
  rewrite E in E'. apply some_eq in E'. subst w'.
  exists w. split; [exact E|]. split; [exact (Hfin Hk)|].
  split; [exact Cw|]. split; [exact Mw|]. split; [exact Gw|].
  rewrite A. cbn [busy DATAR write_IFC].
  split; [apply busy_engine_done|].
  intros b Hb. unfold engine_done. rewrite Hb. reflexivity.
Qed.

(** C7. Zero-block boundary: a call of [AesCtr128] with block count 0 is
    accepted like any other (the function has no error result); it leaves
    [AesFinished] false and, with no part of a block waiting in the
    engine's [DATA] input, the counter submitted to the engine as the
    pending block, so that a completion event follows. The first
    completion event, like every run of one or more events, ends with
    [AesFinished] true, no call of the counter function and the memory,
    hence the counter value, unchanged; the engine then has no block
    pending and holds, unread, the transform of the counter. This holds
    whatever the other arguments and the state before are. *)
Theorem C7_zero_blocks key inputData outputData ctr ctrFunc initDecryption
    (w0 : World) (k : nat) :
  let w1 := AesCtr128 key inputData outputData 0 ctr ctrFunc initDecryption
              w0 in
  let c := load_block (mem w0) (ctrG w1) in
  (1 <= k)%nat ->
  AesFinished w1 = false /\
  (DATAW (AES w0) = [] ->
   busy (AES w1) = Some (rev_block c) /\ DATAW (AES w1) = []) /\
  exists w, deliver k w1 = Some w /\ AesFinished w = true /\
    ctrCalls w = ctrCalls w0 /\ mem w = mem w0 /\
    load_block (mem w) (ctrG w) = load_block (mem w0) (ctrG w1) /\
    busy (AES w) = None /\
    (DATAW (AES w0) = [] ->
     DATAR (AES w) =
     block_words (transform (KEYH (AES w1)) (rev_block c))).
Proof.
  intros w1 c Hk.
  destruct (AesCtr128_statics key inputData outputData 0 ctr ctrFunc
              initDecryption w0)
    as (Sn & Sb & _ & _ & _ & _ & Sfin & Sm & Scalls).
  fold w1 in Sn, Sb, Sfin, Sm, Scalls.
  change (uint16 0) with 0 in Sn.
  pose proof (AesCtr128_engine key inputData outputData 0 ctr ctrFunc
                initDecryption w0) as Se.
  split; [exact Sfin|]. split; [exact Se|].
  destruct (zero_block_run w1 k Sn Sb Hk)
    as (w & E & Hfin & Cw & Mw & Gw & Hb & Hr).
  exists w. split; [exact E|]. split; [exact Hfin|].
  split; [congruence|]. split; [congruence|].
  split; [rewrite Mw, Gw, Sm; reflexivity|].
  split; [exact Hb|].
  intros Hw. apply Hr. apply (Se Hw).
Qed.

(** The engine after a call: the session's configuration and key when
    one is started, then the four [DATA] writes of the counter. *)
Lemma AesCtr128_submits key inputData outputData blockNumber ctr ctrFunc
    initDecryption (w : World) :
  AES (AesCtr128 key inputData outputData blockNumber ctr ctrFunc
                 initDecryption w) =
  submit4 (mem w) (if initDecryption then ctr else ctrG w)
    (if initDecryption
     then mkAES (Z.lor AES_CTRL_KEYBUFEN AES_CTRL_DATASTART) AES_IEN_DONE
                (Z.ldiff (IF_ (AES w)) AES_IFC_DONE)
                (rev_block (load_block (mem w) key))
                (DATAW (AES w)) (busy (AES w)) (DATAR (AES w))
     else AES w).
Proof.
  unfold AesCtr128. rewrite for_submit.
  destruct w as [n b o i c cf fin m e nv calls].
  destruct e as [ct ie fl k dw bs dr].
  destruct k as [[[k0 k1] k2] k3].
  destruct initDecryption; reflexivity.
Qed.

(** C8 (amended). No error contract: [AesCtr128] returns no status and
    checks neither a buffer capacity (none is declared to it) nor that a
    session exists; every call, whatever its arguments and the state
    before, overwrites the stream state: it stores the block count as a
    [uint16_t] and both buffer bases, resets [blockIndex] and
    [aesFinished], keeps or latches the counter pointer as
    [initDecryption] says, leaves the memory alone, and submits the
    counter: the engine is as the four [DATA] writes of the counter
    words, word 3 first and each byte-reversed, leave it (after the
    configuration and key writes when a session is started), which with
    no part of a block waiting in [DATA] makes the counter the pending
    block. *)
Theorem C8_no_error_contract key inputData outputData blockNumber ctr ctrFunc
    initDecryption (w : World) :
  let w' := AesCtr128 key inputData outputData blockNumber ctr ctrFunc
              initDecryption w in
  let c := if initDecryption then ctr else ctrG w in
  StreamState w' =
    (uint16 blockNumber, 0, inputData, outputData, c, false) /\
  mem w' = mem w /\
  AES w' =
    submit4 (mem w) c
      (if initDecryption
       then mkAES (Z.lor AES_CTRL_KEYBUFEN AES_CTRL_DATASTART) AES_IEN_DONE
                  (Z.ldiff (IF_ (AES w)) AES_IFC_DONE)
                  (rev_block (load_block (mem w) key))
                  (DATAW (AES w)) (busy (AES w)) (DATAR (AES w))
       else AES w) /\
  (DATAW (AES w) = [] ->
   busy (AES w') = Some (rev_block (load_block (mem w) c)) /\
   DATAW (AES w') = []).
Proof.
  intros w' c.
  destruct (AesCtr128_statics key inputData outputData blockNumber ctr ctrFunc
              initDecryption w)
    as (Sn & Sb & Si & So & Sc & _ & Sfin & Sm & _).
  assert (Se : DATAW (AES w) = [] ->
               busy (AES w') = Some (rev_block (load_block (mem w) (ctrG w')))
               /\ DATAW (AES w') = [])
    by exact (AesCtr128_engine key inputData outputData blockNumber ctr
                ctrFunc initDecryption w).
  pose proof (AesCtr128_submits key inputData outputData blockNumber ctr
                ctrFunc initDecryption w) as Sa.
  fold w' in Sn, Sb, Si, So, Sc, Sfin, Sm, Sa. fold c in Sc, Sa.
  clearbody w'. rewrite Sc in Se.
  unfold StreamState. rewrite Sn, Sb, Si, So, Sc, Sfin.
  split; [reflexivity|]. split; [exact Sm|]. split; [exact Sa | exact Se].
Qed.

Lemma uint16_idem (z : Z) : uint16 (uint16 z) = uint16 z.
Proof. unfold uint16. apply Z.mod_mod. lia. Qed.

(** C9. Block-count truncation: the 32-bit [blockNumber] is stored in the
    16-bit [numberOfBlocks], so a call behaves as the call with
    [blockNumber mod 2^16]: it reaches the very same state, in particular
    a multiple of 65536 as block count gives the state of a zero-block
    call; and the blocks processed are [blockNumber mod 2^16]: with a
    counter function in place the chunk finishes at event
    [blockNumber mod 2^16 + 1], after that many calls of the counter
    function and with both cursors that many blocks on. *)
Theorem C9_block_count_truncation key inputData outputData blockNumber ctr
    ctrFunc initDecryption (w0 : World) :
  let call := fun n => AesCtr128 key inputData outputData n ctr ctrFunc
                                 initDecryption w0 in
  let N := blockNumber mod 2 ^ 16 in
  numberOfBlocks (call blockNumber) = N /\
  call blockNumber = call N /\
  (forall q : Z, call (65536 * q) = call 0) /\
  (forall f : Block -> Block, ctrFuncG (call blockNumber) = Some f ->
   (forall k : nat, Z.of_nat k <= N ->
    exists w, deliver k (call blockNumber) = Some w /\
              AesFinished w = false) /\
   exists wF, deliver (S (Z.to_nat N)) (call blockNumber) = Some wF /\
     AesFinished wF = true /\
     ctrCalls wF = (ctrCalls w0 + Z.to_nat N)%nat /\
     uint32 (inputDataG wF) = uint32 (inputData + 16 * N) /\
     uint32 (outputDataG wF) = uint32 (outputData + 16 * N)).
Proof.
  intros call N.
  assert (Hcall : forall n, call n = call (uint16 n)).
  { intros n. unfold call, AesCtr128. rewrite uint16_idem. reflexivity. }
  destruct (AesCtr128_statics key inputData outputData blockNumber ctr ctrFunc
              initDecryption w0)
    as (Sn & Sb & Si & So & _ & _ & Sfin & _ & Scalls).
  fold (call blockNumber) in Sn, Sb, Si, So, Sfin, Scalls.
  fold N in Sn. change (uint16 blockNumber) with N in Sn.
  assert (HN : 0 <= N < 2 ^ 16) by apply uint16_range.
  split; [exact Sn|]. split; [apply Hcall|]. split.
  - intros q. rewrite (Hcall (65536 * q)). f_equal.
    unfold uint16. change (2 ^ 16) with 65536.
    rewrite Z.mul_comm. apply Z.mod_mul. lia.
  - intros f Hf.
    assert (Run : forall k : nat, Z.of_nat k <= N ->
              exists w, deliver k (call blockNumber) = Some w /\
                numberOfBlocks w = N /\ blockIndex w = Z.of_nat k /\
                aesFinished w = false /\
                ctrCalls w = (ctrCalls w0 + k)%nat /\
                uint32 (inputDataG w) = uint32 (inputData + 16 * Z.of_nat k) /\
                uint32 (outputDataG w) = uint32 (outputData + 16 * Z.of_nat k)).
    { intros k Hk.
      destruct (deliver_blocks k (call blockNumber) f Hf)
        as (w & E & Rn & Rb & Ro & Ri & _ & _ & Rfin & Rcalls); try lia.
      rewrite Si in Ri. rewrite So in Ro. rewrite Sn in Rn. rewrite Sb in Rb.
      rewrite Sfin in Rfin. rewrite Scalls in Rcalls.
      exists w. split; [exact E|]. split; [exact Rn|]. split; [lia|].
      split; [exact Rfin|]. split; [exact Rcalls|]. split; assumption. }
    split.
    + intros k Hk. destruct (Run k Hk) as (w & E & _ & _ & Hfin & _).
      exists w. split; assumption.
    + destruct (Run (Z.to_nat N)) as (w & E & Rn & Rb & _ & Rc & Ri & Ro);
        [lia|].
      rewrite Z2Nat.id in Ri, Ro by lia.
      eexists. split.
      * replace (S (Z.to_nat N)) with (Z.to_nat N + 1)%nat by lia.
        rewrite deliver_add, E. cbn [deliver].
        rewrite event_last by lia. reflexivity.
      * cbn. repeat split; assumption.
Qed.

(** C10. Parameter latching: with [initDecryption] false the [key], [ctr]
    and [ctrFunc] arguments play no part: any two calls that agree on the
    buffers and the block count reach the same state, so every run of
    completion events after them is the same, and the counter pointer and
    function stay those of the state before. *)
Theorem C10_parameter_latching key key' inputData outputData blockNumber
    ctr ctr' ctrFunc ctrFunc' (w : World) :
  let w1 := AesCtr128 key inputData outputData blockNumber ctr ctrFunc
              false w in
  let w1' := AesCtr128 key' inputData outputData blockNumber ctr' ctrFunc'
               false w in
  w1 = w1' /\
  (forall k : nat, deliver k w1 = deliver k w1') /\
  ctrG w1 = ctrG w /\ ctrFuncG w1 = ctrFuncG w.
Proof.
  intros w1 w1'.
  assert (Hsame : w1 = w1') by reflexivity.
  split; [exact Hsame|]. split.
  - intros k. rewrite Hsame. reflexivity.
  - destruct (AesCtr128_statics key inputData outputData blockNumber ctr
                ctrFunc false w) as (_ & _ & _ & _ & Sc & Sf & _).
    split; [exact Sc | exact Sf].
Qed.


(** ** Further properties of the handler and the entry point *)

Lemma engine_done_config (e : AES_TypeDef) :
  CTRL (engine_done e) = CTRL e /\ IEN (engine_done e) = IEN e /\
  KEYH (engine_done e) = KEYH e /\ DATAW (engine_done e) = DATAW e.
Proof.
  unfold engine_done. destruct (busy e); cbn; auto.
Qed.

(** No completion event touches the session or the configuration. *)
Lemma event_keeps_session (w w' : World) :
  completion_event w = Some w' ->
  KEYH (AES w') = KEYH (AES w) /\ CTRL (AES w') = CTRL (AES w) /\
  IEN (AES w') = IEN (AES w) /\ NVIC_ISER w' = NVIC_ISER w /\
  ctrG w' = ctrG w /\ ctrFuncG w' = ctrFuncG w /\
  numberOfBlocks w' = numberOfBlocks w.
Proof.
  intros E.
  destruct (engine_done_config (AES w)) as (D1 & D2 & D3 & _).
  destruct (Z.lt_ge_cases (blockIndex w) (numberOfBlocks w)) as [Hlt | Hge].
  - destruct (ctrFuncG w) as [f|] eqn:Hf.
    + destruct (event_block_exact w f Hlt Hf) as (w2 & E2 & S2 & _ & A).
      rewrite E in E2. injection E2 as <-.
      destruct S2 as (Sn & _ & _ & _ & Sc & Sf & _ & _ & Sv).
      destruct (submit4_config (mem w') (ctrG w)
                  (drain (write_IFC AES_IFC_DONE (engine_done (AES w)))))
        as (Q1 & Q2 & _ & Q4 & _).
      rewrite A, Q1, Q2, Q4. cbn [KEYH CTRL IEN drain write_IFC].
      rewrite Hf in Sf. repeat split; assumption.
    + unfold completion_event in E.
      rewrite handler_null in E; [discriminate | exact Hlt | exact Hf].
  - rewrite event_last in E by exact Hge. injection E as <-.
    cbn. repeat split; assumption.
Qed.

(** X8. Completion events never reconfigure: after any run of completion
    events the engine key, [CTRL] and [IEN], the NVIC enable words, the
    counter pointer and function and the block count are those the run
    started with. *)
Theorem events_keep_configuration (k : nat) (w w' : World) :
  deliver k w = Some w' ->
  KEYH (AES w') = KEYH (AES w) /\ CTRL (AES w') = CTRL (AES w) /\
  IEN (AES w') = IEN (AES w) /\ NVIC_ISER w' = NVIC_ISER w /\
  ctrG w' = ctrG w /\ ctrFuncG w' = ctrFuncG w /\
  numberOfBlocks w' = numberOfBlocks w.
Proof.
  revert w. induction k as [|k IH]; intros w E; cbn [deliver] in E.
  - injection E as <-. repeat split.
  - destruct (completion_event w) as [w1|] eqn:E1; [|discriminate].
    destruct (event_keeps_session w w1 E1) as (A1 & A2 & A3 & A4 & A5 & A6 & A7).
    destruct (IH w1 E) as (B1 & B2 & B3 & B4 & B5 & B6 & B7).
    repeat split; congruence.
Qed.

(** X4. No guard on the counter function: when the stored function
    pointer is null after a call that asks for at least one block, the
    first completion event calls through it and faults, and so does every
    longer run of events. *)
Theorem null_counter_function_faults key inputData outputData blockNumber
    ctr ctrFunc initDecryption (w0 : World) (k : nat) :
  let w1 := AesCtr128 key inputData outputData blockNumber ctr ctrFunc
              initDecryption w0 in
  ctrFuncG w1 = None -> 1 <= uint16 blockNumber -> (1 <= k)%nat ->
  completion_event w1 = None /\ deliver k w1 = None.
Proof.
  intros w1 Hf HN Hk.
  destruct (AesCtr128_statics key inputData outputData blockNumber ctr ctrFunc
              initDecryption w0) as (Sn & Sb & _).
  fold w1 in Sn, Sb.
  assert (E : completion_event w1 = None).
  { unfold completion_event. apply handler_null; [cbn; lia | exact Hf]. }
  split; [exact E|].
  destruct k as [|k]; [lia|]. cbn [deliver]. rewrite E. reflexivity.
Qed.

(** Events that find the index at or past the count, up to the point
    where the 16-bit index wraps. *)
Lemma deliver_stray (j : nat) : forall w : World,
  numberOfBlocks w <= blockIndex w -> 0 <= blockIndex w < 2 ^ 16 ->
  blockIndex w + Z.of_nat j <= 2 ^ 16 ->
  exists w', deliver j w = Some w' /\
    blockIndex w' = uint16 (blockIndex w + Z.of_nat j) /\
    ((1 <= j)%nat -> aesFinished w' = true) /\
    mem w' = mem w /\ ctrCalls w' = ctrCalls w /\
    inputDataG w' = inputDataG w /\ outputDataG w' = outputDataG w.
Proof.
  induction j as [|j IH]; intros w Hn Hb Hj.
  - exists w. cbn [deliver]. rewrite Z.add_0_r, uint16_small by exact Hb.
    repeat split. lia.
  - cbn [deliver]. rewrite event_last by exact Hn.
    set (w2 := set_blockIndex _ _).
    destruct j as [|j].
    + exists w2. cbn [deliver]. subst w2. cbn. repeat split.
    + destruct (IH w2) as (w' & E & Rb & _ & Rm & Rc & Ri & Ro).
      * subst w2. cbn. rewrite uint16_small by lia. lia.
      * subst w2. cbn. apply uint16_range.
      * subst w2. cbn. rewrite uint16_small by lia. lia.
      * exists w'. split; [exact E|].
        split.
        { rewrite Rb. subst w2. cbn.
          rewrite (uint16_small (blockIndex w + 1)) by lia.
          f_equal. lia. }
        split.
        { intros _. apply (deliver_keeps_finished (S j) w2 w' E). reflexivity. }
        repeat split; assumption.
Qed.

(** X5. Stray events are harmless up to the wrap of the index: in a state
    with no block left ([numberOfBlocks <= blockIndex]), any run of
    completion events that does not take the 16-bit [blockIndex] past
    65536 only counts: memory, cursors and the number of counter calls
    stay, [aesFinished] is set, and [blockIndex] is the old index plus the
    number of events as a [uint16_t]. *)
Theorem stray_events_only_count (j : nat) (w : World) :
  numberOfBlocks w <= blockIndex w -> 0 <= blockIndex w < 2 ^ 16 ->
  (1 <= j)%nat -> blockIndex w + Z.of_nat j <= 2 ^ 16 ->
  exists w', deliver j w = Some w' /\
    blockIndex w' = uint16 (blockIndex w + Z.of_nat j) /\
    aesFinished w' = true /\
    mem w' = mem w /\ ctrCalls w' = ctrCalls w /\
    inputDataG w' = inputDataG w /\ outputDataG w' = outputDataG w.
Proof.
  intros Hn Hb Hj1 Hj.
  destruct (deliver_stray j w Hn Hb Hj) as (w' & E & Rb & Rf & R).
  exists w'. split; [exact E|]. split; [exact Rb|]. split; [exact (Rf Hj1)|].
  exact R.
Qed.

(** X6. The index wraps: in a state with no block left, a session in
    place and a chunk of at least one block, the run of
    [65536 - blockIndex] completion events brings [blockIndex] back to 0,
    and the next event takes the block branch again: it calls the counter
    function and moves both cursors one block on, past the end of the
    buffers when the chunk had been completed, with [aesFinished] still
    true. *)
Theorem index_wrap_resumes (w : World) (f : Block -> Block) :
  numberOfBlocks w <= blockIndex w -> 0 <= blockIndex w < 2 ^ 16 ->
  1 <= numberOfBlocks w -> ctrFuncG w = Some f ->
  exists w0 w1,
    deliver (Z.to_nat (2 ^ 16 - blockIndex w)) w = Some w0 /\
    blockIndex w0 = 0 /\ aesFinished w0 = true /\
    completion_event w0 = Some w1 /\
    aesFinished w1 = true /\ blockIndex w1 = 1 /\
    ctrCalls w1 = S (ctrCalls w) /\
    inputDataG w1 = elem (inputDataG w) 4 /\
    outputDataG w1 = elem (outputDataG w) 4.
Proof.
  intros Hn Hb HN Hf.
  set (j := Z.to_nat (2 ^ 16 - blockIndex w)).
  destruct (deliver_stray j w Hn Hb) as (w0 & E & Rb & Rf & Rm & Rc & Ri & Ro);
    [subst j; lia|].
  destruct (events_keep_configuration j w w0 E)
    as (_ & _ & _ & _ & _ & Kf & Kn).
  assert (Hb0 : blockIndex w0 = 0).
  { rewrite Rb. subst j. rewrite Z2Nat.id by lia.
    replace (blockIndex w + (2 ^ 16 - blockIndex w)) with (2 ^ 16) by lia.
    reflexivity. }
  destruct (event_block w0 f) as (w1 & E1 & S1); [lia | congruence |].
  destruct S1 as (_ & Sb & So & Si & _ & _ & Sfin & Scalls & _).
  exists w0, w1. split; [exact E|]. split; [exact Hb0|].
  assert (Hfin0 : aesFinished w0 = true) by (apply Rf; subst j; lia).
  split; [exact Hfin0|]. split; [exact E1|].
  split; [congruence|]. split; [rewrite Sb, Hb0; reflexivity|].
  split; [congruence|]. split; congruence.
Qed.

Lemma store_block_frame (m : Memory) (p : Z) (b : Block) (a : Z) :
  in_space p 16 -> a < p \/ p + 16 <= a -> store_block m p b a = m a.
Proof.
  intros [Hp0 Hp1] Ha. destruct b as [[[b0 b1] b2] b3].
  unfold store_block. elem_norm. store_cases; reflexivity.
Qed.

Lemma combine_mem_frame (m : Memory) (inp out : Z) (d : Block) (a : Z) :
  in_space out 16 -> a < out \/ out + 16 <= a ->
  combine_mem m inp out d a = m a.
Proof.
  intros [Ho0 Ho1] Ha. destruct d as [[[d0 d1] d2] d3].
  unfold combine_mem. rewrite !(elem_small out) by lia.
  unfold store.
  repeat match goal with
  | |- context [a =? ?b] => destruct (Z.eqb_spec a b); try lia
  end; reflexivity.
Qed.

(** X7. Writes stay inside: during a chunk, up to and including the event
    that finishes it, the handler writes memory only inside the output
    buffer of [16 * N] bytes and the sixteen counter bytes; every 32-bit
    word whose four bytes lie outside both keeps the value it had at the
    call. *)
Theorem chunk_writes_stay_inside key inputData outputData blockNumber ctr
    ctrFunc initDecryption (w0 : World) (f : Block -> Block) (k : nat) :
  let w1 := AesCtr128 key inputData outputData blockNumber ctr ctrFunc
              initDecryption w0 in
  let N := uint16 blockNumber in
  let c := ctrG w1 in
  ctrFuncG w1 = Some f ->
  in_space outputData (16 * N) -> in_space c 16 ->
  apart c 16 outputData (16 * N) ->
  Z.of_nat k <= N + 1 ->
  exists w, deliver k w1 = Some w /\
    forall a : Z,
      a + 4 <= outputData \/ outputData + 16 * N <= a ->
      a + 4 <= c \/ c + 16 <= a ->
      mem w a = mem w0 a.
Proof.
  intros w1 N c Hf Ho Hc Hco Hk.
  assert (HN : 0 <= N < 2 ^ 16) by apply uint16_range.
  pose proof (AesCtr128_start key inputData outputData blockNumber ctr ctrFunc
                initDecryption w0 f Hf) as IS.
  destruct (AesCtr128_statics key inputData outputData blockNumber ctr ctrFunc
              initDecryption w0) as (_ & _ & _ & _ & _ & _ & _ & Sm & _).
  fold w1 in IS, Sm. fold c in IS. fold N in IS.
  set (I := fun (j : nat) (w : World) =>
              inv_session N outputData c f (mem w0) (ctrCalls w0) j w /\
              forall a : Z,
                a + 4 <= outputData \/ outputData + 16 * N <= a ->
                a + 4 <= c \/ c + 16 <= a -> mem w a = mem w0 a).
  assert (Run : forall j : nat, Z.of_nat j <= N ->
            exists w, deliver j w1 = Some w /\ I j w).
  { intros j Hj.
    apply (deliver_invariant I (Z.to_nat N)); [| lia |].
    - intros i w Hi (ISi & Fi).
      destruct (step_session N outputData c f (mem w0) (ctrCalls w0)
                  HN Ho Hc Hco i w) as (w' & E & IS'); [lia | exact ISi |].
      exists w'. split; [exact E|]. split; [exact IS'|].
      destruct ISi as (In & Ib & Io & Ic & If & _).
      destruct (event_block_exact w f) as (w2 & E2 & _ & M & _);
        [lia | exact If |].
      rewrite E in E2. injection E2 as <-.
      intros a Ha1 Ha2. rewrite M, Ic, Io.
      destruct Ho as [Ho0 Ho1].
      rewrite combine_mem_frame; [| unfold in_space; lia | lia].
      rewrite store_block_frame; [| exact Hc | lia].
      apply Fi; assumption.
    - split; [exact IS|]. intros a _ _. rewrite Sm. reflexivity. }
  destruct (Z.le_gt_cases (Z.of_nat k) N) as [Hle | Hgt].
  - destruct (Run k Hle) as (w & E & _ & F). exists w. split; assumption.
  - assert (Hk' : k = S (Z.to_nat N)) by lia.
    destruct (Run (Z.to_nat N)) as (wN & EN & ISN & F); [lia|].
    destruct (finish_chunk N outputData c f (mem w0) (ctrCalls w0) w1 wN
                HN EN ISN) as (wF & EF & _ & _ & _ & Mf & _).
    exists wF. rewrite Hk'. split; [exact EF|].
    intros a Ha1 Ha2. rewrite Mf. apply F; assumption.
Qed.

(** ** Sessions of several chunks *)

Lemma run_engine N out c f K m0 calls0 (w1 : World) :
  0 <= N < 2 ^ 16 -> in_space out (16 * N) -> in_space c 16 ->
  apart c 16 out (16 * N) ->
  inv_session N out c f m0 calls0 0 w1 -> inv_engine c f K m0 0 w1 ->
  forall k : nat, Z.of_nat k <= N ->
  exists w, deliver k w1 = Some w /\
    inv_session N out c f m0 calls0 k w /\ inv_engine c f K m0 k w.
Proof.
  intros HN Ho Hc Hco IS IE k Hk.
  apply (deliver_invariant
           (fun k w => inv_session N out c f m0 calls0 k w /\
                       inv_engine c f K m0 k w) (Z.to_nat N));
    [| lia | auto].
  intros j w Hj (IS' & IE').
  destruct (step_session N out c f m0 calls0 HN Ho Hc Hco j w)
    as (w' & E & IS2); [lia | exact IS' |].
  exists w'. split; [exact E|]. split; [exact IS2|].
  eapply step_engine; eauto. lia.
Qed.

(** The state a chunk ends in. *)
Lemma chunk_end N out c f K m0 calls0 (w1 : World) :
  0 <= N < 2 ^ 16 -> in_space out (16 * N) -> in_space c 16 ->
  apart c 16 out (16 * N) ->
  inv_session N out c f m0 calls0 0 w1 -> inv_engine c f K m0 0 w1 ->
  exists wF, deliver (S (Z.to_nat N)) w1 = Some wF /\
    aesFinished wF = true /\
    busy (AES wF) = None /\ DATAW (AES wF) = [] /\ KEYH (AES wF) = K /\
    DATAR (AES wF) =
      block_words (transform K (rev_block (ctr_at c f m0 (Z.to_nat N)))) /\
    ctrG wF = c /\ ctrFuncG wF = Some f /\
    load_block (mem wF) c = ctr_at c f m0 (Z.to_nat N) /\
    ctrCalls wF = (calls0 + Z.to_nat N)%nat.
Proof.
  intros HN Ho Hc Hco IS IE.
  destruct (run_engine N out c f K m0 calls0 w1 HN Ho Hc Hco IS IE
              (Z.to_nat N))
    as (wN & EN & ISN & (Bb & Bk & Bw)); [lia|].
  destruct ISN as (In & Ib & Io & Ic & If & Ifin & Icalls & Ictr).
  assert (Hdone : engine_done (AES wN) =
            mkAES (CTRL (AES wN)) (IEN (AES wN))
                  (Z.lor (IF_ (AES wN)) AES_IFC_DONE) K [] None
                  (block_words
                     (transform K (rev_block (ctr_at c f m0 (Z.to_nat N)))))).
  { unfold engine_done. rewrite Bb, Bk, Bw. reflexivity. }
  eexists. split.
  - replace (S (Z.to_nat N)) with (Z.to_nat N + 1)%nat by lia.
    rewrite deliver_add, EN. cbn [deliver].
    rewrite event_last by lia. rewrite Hdone. reflexivity.
  - cbn [aesFinished set_blockIndex set_aesFinished set_AES AES busy DATAW
         KEYH DATAR write_IFC ctrG ctrFuncG mem ctrCalls].
    split; [reflexivity|]. split; [reflexivity|]. split; [reflexivity|].
    split; [reflexivity|]. split; [reflexivity|].
    split; [exact Ic|]. split; [exact If|]. split; [exact Ictr | exact Icalls].
Qed.

(** X3. A finished chunk leaves the engine ready: after the event that
    sets [aesFinished] the engine has no block pending and no partial
    input, still holds the session key, and holds, unread, the transform
    of the counter as it stands; the counter pointer and function are in
    place and the counter has taken its [N] steps. *)
Theorem finished_chunk_leaves_engine_idle key inputData outputData
    blockNumber ctr ctrFunc initDecryption (w0 : World) (f : Block -> Block) :
  let w1 := AesCtr128 key inputData outputData blockNumber ctr ctrFunc
              initDecryption w0 in
  let N := uint16 blockNumber in
  let c := ctrG w1 in
  let ctr_N := Nat.iter (Z.to_nat N) f (load_block (mem w0) c) in
  ctrFuncG w1 = Some f -> DATAW (AES w0) = [] ->
  in_space outputData (16 * N) -> in_space c 16 ->
  apart c 16 outputData (16 * N) ->
  exists wF, deliver (S (Z.to_nat N)) w1 = Some wF /\
    AesFinished wF = true /\
    busy (AES wF) = None /\ DATAW (AES wF) = [] /\
    KEYH (AES wF) = KEYH (AES w1) /\
    DATAR (AES wF) =
      block_words (transform (KEYH (AES w1)) (rev_block ctr_N)) /\
    ctrG wF = c /\ ctrFuncG wF = Some f /\
    load_block (mem wF) c = ctr_N.
Proof.
  intros w1 N c ctr_N Hf Hw Ho Hc Hco.
  assert (HN : 0 <= N < 2 ^ 16) by apply uint16_range.
  pose proof (AesCtr128_start key inputData outputData blockNumber ctr ctrFunc
                initDecryption w0 f Hf) as IS.
  destruct (AesCtr128_engine key inputData outputData blockNumber ctr ctrFunc
              initDecryption w0 Hw) as (Eb & Ew).
  fold w1 in IS, Eb, Ew. fold c in IS, Eb. fold N in IS.
  assert (IE : inv_engine c f (KEYH (AES w1)) (mem w0) 0 w1).
  { unfold inv_engine, ctr_at. cbn [Nat.iter]. auto. }
  destruct (chunk_end N outputData c f (KEYH (AES w1)) (mem w0) (ctrCalls w0)
              w1 HN Ho Hc Hco IS IE)
    as (wF & E & R1 & R2 & R3 & R4 & R5 & R6 & R7 & R8 & _).
  exists wF. unfold AesFinished.
  split; [exact E|]. split; [exact R1|]. split; [exact R2|].
  split; [exact R3|]. split; [exact R4|]. split; [exact R5|].
  split; [exact R6|]. split; [exact R7 | exact R8].
Qed.

Lemma AesCtr128_reuse_key key inputData outputData blockNumber ctr ctrFunc
    (w : World) :
  KEYH (AES (AesCtr128 key inputData outputData blockNumber ctr ctrFunc
                       false w)) = KEYH (AES w).
Proof.
  unfold AesCtr128. rewrite for_submit. cbn [AES set_AES].
  apply submit4_config.
Qed.

(** A whole chunk from a state that satisfies the invariants at 0: every
    output block and the final counter. *)
Lemma chunk_result N inp out c f K m0 calls0 (w1 : World) :
  0 <= N < 2 ^ 16 -> in_space out (16 * N) -> in_space c 16 ->
  apart c 16 out (16 * N) -> in_space inp (16 * N) ->
  inp = out \/ apart inp (16 * N) out (16 * N) -> apart c 16 inp (16 * N) ->
  inv_session N out c f m0 calls0 0 w1 ->
  inv_engine c f K m0 0 w1 -> inv_buffers N inp out c f K m0 0 w1 ->
  exists wE, deliver (S (Z.to_nat N)) w1 = Some wE /\ aesFinished wE = true /\
    load_block (mem wE) c = ctr_at c f m0 (Z.to_nat N) /\
    forall i : nat, Z.of_nat i < N ->
      load_block (mem wE) (out + 16 * Z.of_nat i) =
      xor_block (keystream K (ctr_at c f m0 i))
                (load_block m0 (inp + 16 * Z.of_nat i)).
Proof.
  intros HN Ho Hc Hco Hi Hio Hci IS IE IB.
  destruct (run_chunk N inp out c f K m0 calls0 w1 HN Ho Hc Hco Hi Hio Hci
              IS IE IB (Z.to_nat N)) as (wN & EN & ISN & _ & (_ & Bout & _));
    [lia|].
  destruct (finish_chunk N out c f m0 calls0 w1 wN HN EN ISN)
    as (wE & EE & Ffin & _ & _ & Fm & _).
  destruct ISN as (_ & _ & _ & _ & _ & _ & _ & Ictr).
  exists wE. split; [exact EE|]. split; [exact Ffin|]. rewrite Fm.
  split; [exact Ictr|]. intros i Hi'. apply Bout. lia.
Qed.

(** X2. The counter runs on across chunks: when a chunk of [N1] blocks
    has finished and the next call reuses the session
    ([initDecryption] false), block [i] of the new chunk is combined with
    the keystream of the counter after [N1 + i] steps from the session's
    first counter value, whatever [key], [ctr] and [ctrFunc] the second
    call passes, and at the end of the second chunk of [N2] blocks the
    counter has taken [N1 + N2] steps. *)
Theorem next_chunk_continues_counter key inputData outputData blockNumber
    ctr ctrFunc initDecryption key2 inputData2 outputData2 blockNumber2 ctr2
    ctrFunc2 (w0 wF : World) (f : Block -> Block) (i : nat) :
  let w1 := AesCtr128 key inputData outputData blockNumber ctr ctrFunc
              initDecryption w0 in
  let N1 := uint16 blockNumber in
  let c := ctrG w1 in
  let ctr0 := load_block (mem w0) c in
  let w2 := AesCtr128 key2 inputData2 outputData2 blockNumber2 ctr2 ctrFunc2
              false wF in
  let N2 := uint16 blockNumber2 in
  ctrFuncG w1 = Some f -> DATAW (AES w0) = [] ->
  in_space outputData (16 * N1) -> in_space c 16 ->
  apart c 16 outputData (16 * N1) ->
  deliver (S (Z.to_nat N1)) w1 = Some wF ->
  in_space inputData2 (16 * N2) -> in_space outputData2 (16 * N2) ->
  inputData2 = outputData2 \/
  apart inputData2 (16 * N2) outputData2 (16 * N2) ->
  apart c 16 outputData2 (16 * N2) -> apart c 16 inputData2 (16 * N2) ->
  Z.of_nat i < N2 ->
  exists wE, deliver (S (Z.to_nat N2)) w2 = Some wE /\
    AesFinished wE = true /\
    load_block (mem wE) (outputData2 + 16 * Z.of_nat i) =
      xor_block
        (keystream (KEYH (AES w1)) (Nat.iter (i + Z.to_nat N1) f ctr0))
        (load_block (mem wF) (inputData2 + 16 * Z.of_nat i)) /\
    load_block (mem wE) c = Nat.iter (Z.to_nat N2 + Z.to_nat N1) f ctr0.
Proof.
  intros w1 N1 c ctr0 w2 N2 Hf Hw Ho Hc Hco EF Hi2 Ho2 Hio2 Hco2 Hci2 HiN.
  assert (HN1 : 0 <= N1 < 2 ^ 16) by apply uint16_range.
  assert (HN2 : 0 <= N2 < 2 ^ 16) by apply uint16_range.
  (* the first chunk *)
  pose proof (AesCtr128_start key inputData outputData blockNumber ctr ctrFunc
                initDecryption w0 f Hf) as IS.
  destruct (AesCtr128_engine key inputData outputData blockNumber ctr ctrFunc
              initDecryption w0 Hw) as (Eb & Ew).
  fold w1 in IS, Eb, Ew. fold c in IS, Eb. fold N1 in IS.
  assert (IE : inv_engine c f (KEYH (AES w1)) (mem w0) 0 w1).
  { unfold inv_engine, ctr_at. cbn [Nat.iter]. auto. }
  destruct (chunk_end N1 outputData c f (KEYH (AES w1)) (mem w0) (ctrCalls w0)
              w1 HN1 Ho Hc Hco IS IE)
    as (wF' & E' & _ & _ & Fw & Fk & _ & Fc & Ff & Fctr & _).
  rewrite EF in E'. injection E' as <-.
  unfold ctr_at in Fctr. fold ctr0 in Fctr.
  set (K := KEYH (AES w1)) in *.
  clearbody K. clear IS IE Eb Ew EF. clearbody ctr0. clearbody c.
  clearbody N1. clearbody w1.
  (* the second chunk *)
  destruct (AesCtr128_statics key2 inputData2 outputData2 blockNumber2 ctr2
              ctrFunc2 false wF)
    as (_ & _ & Si & _ & Sc & Sf & _ & Sm & _).
  fold w2 in Si, Sc, Sf, Sm.
  assert (Hf2 : ctrFuncG w2 = Some f) by congruence.
  pose proof (AesCtr128_start key2 inputData2 outputData2 blockNumber2 ctr2
                ctrFunc2 false wF f Hf2) as IS2.
  destruct (AesCtr128_engine key2 inputData2 outputData2 blockNumber2 ctr2
              ctrFunc2 false wF Fw) as (Eb2 & Ew2).
  pose proof (AesCtr128_reuse_key key2 inputData2 outputData2 blockNumber2
                ctr2 ctrFunc2 wF) as Ek2.
  fold w2 in IS2, Eb2, Ew2, Ek2. fold N2 in IS2.
  rewrite Sc, Fc in IS2, Eb2. rewrite Fk in Ek2.
  assert (IE2 : inv_engine c f K (mem wF) 0 w2).
  { unfold inv_engine, ctr_at. cbn [Nat.iter]. auto. }
  assert (IB2 : inv_buffers N2 inputData2 outputData2 c f K (mem wF) 0 w2).
  { unfold inv_buffers. split; [rewrite Si; cbn; lia|]. split.
    - intros j Hj. lia.
    - intros j _ _. rewrite Sm. reflexivity. }
  clearbody w2. clearbody N2.
  destruct (chunk_result N2 inputData2 outputData2 c f K (mem wF)
              (ctrCalls wF) w2 HN2 Ho2 Hc Hco2 Hi2 Hio2 Hci2 IS2 IE2 IB2)
    as (wE & EE & Efin & Ectr & Eout).
  exists wE. split; [exact EE|]. split; [exact Efin|].
  unfold ctr_at in Ectr, Eout. rewrite Fctr in Ectr, Eout.
  rewrite !Nat.iter_add. split; [apply Eout; exact HiN | exact Ectr].
Qed.

(** ** The engine boundary *)

Lemma testbit_255 (m : Z) : Z.testbit 255 m = (0 <=? m) && (m <? 8).
Proof.
  change 255 with (Z.ones 8).
  destruct (Z.leb_spec 0 m) as [H0 | H0]; cbn [andb].
  - destruct (Z.ltb_spec m 8) as [H8 | H8].
    + apply Z.ones_spec_low. lia.
    + apply Z.ones_spec_high. lia.
  - apply Z.testbit_neg_r. exact H0.
Qed.

Lemma REV_testbit (x n : Z) :
  0 <= n ->
  Z.testbit (__REV x) n =
  if n <? 8 then Z.testbit x (n + 24)
  else if n <? 16 then Z.testbit x (n + 8)
  else if n <? 24 then Z.testbit x (n - 8)
  else if n <? 32 then Z.testbit x (n - 24)
  else false.
Proof.
  intros Hn. unfold __REV.
  rewrite !Z.lor_spec, !Z.shiftl_spec by lia.
  rewrite !Z.land_spec, !testbit_255.
  destruct (Z.ltb_spec n 8); [|destruct (Z.ltb_spec n 16);
    [|destruct (Z.ltb_spec n 24); [|destruct (Z.ltb_spec n 32)]]];
  repeat match goal with
  | |- context [?a <=? ?b] => destruct (Z.leb_spec a b); try lia
  | |- context [?a <? ?b] => destruct (Z.ltb_spec a b); try lia
  end;
  cbn [andb orb]; rewrite ?andb_false_r, ?andb_true_r, ?orb_false_r;
  cbn [andb orb]; try reflexivity;
  rewrite Z.shiftr_spec by lia; f_equal; lia.
Qed.

Lemma REV_involutive (x : Z) : 0 <= x < 2 ^ 32 -> __REV (__REV x) = x.
Proof.
  intros Hx. apply Z.bits_inj'. intros n Hn.
  rewrite REV_testbit by exact Hn.
  destruct (Z.ltb_spec n 8); [|destruct (Z.ltb_spec n 16);
    [|destruct (Z.ltb_spec n 24); [|destruct (Z.ltb_spec n 32)]]];
  try (rewrite REV_testbit by lia;
       repeat match goal with
       | |- context [?a <? ?b] => destruct (Z.ltb_spec a b); try lia
       end; f_equal; lia).
  symmetry. rewrite <- (Z.mod_small x (2 ^ 32)) by exact Hx.
  apply Z.mod_pow2_bits_high. lia.
Qed.

Lemma rev_block_involutive (b : Block) :
  word_block b -> rev_block (rev_block b) = b.
Proof.
  destruct b as [[[b0 b1] b2] b3]. intros (H0 & H1 & H2 & H3).
  unfold rev_block. rewrite !REV_involutive by assumption. reflexivity.
Qed.

(** X9. The two crossings of the engine boundary cancel: the submit loop
    and the combine loop use the same word order and byte reversal, so
    with an engine that hands back the block it was given every output
    block of a chunk is the input block XORed with the counter words
    themselves, the counter after [i] steps for block [i]. *)
Theorem echo_engine_xors_counter key inputData outputData blockNumber ctr
    ctrFunc initDecryption (w0 : World) (f : Block -> Block) (i : nat) :
  let w1 := AesCtr128 key inputData outputData blockNumber ctr ctrFunc
              initDecryption w0 in
  let N := uint16 blockNumber in
  let c := ctrG w1 in
  let ctr_i := Nat.iter i f (load_block (mem w0) c) in
  (forall k b : Block, transform k b = b) ->
  word_block ctr_i ->
  ctrFuncG w1 = Some f -> DATAW (AES w0) = [] ->
  in_space inputData (16 * N) -> in_space outputData (16 * N) ->
  in_space c 16 ->
  inputData = outputData \/ apart inputData (16 * N) outputData (16 * N) ->
  apart c 16 outputData (16 * N) -> apart c 16 inputData (16 * N) ->
  Z.of_nat i < N ->
  exists wE, deliver (S (Z.to_nat N)) w1 = Some wE /\ AesFinished wE = true /\
    load_block (mem wE) (outputData + 16 * Z.of_nat i) =
    xor_block ctr_i (load_block (mem w0) (inputData + 16 * Z.of_nat i)).
Proof.
  intros w1 N c ctr_i Hecho Hword Hf Hw Hi Ho Hc Hio Hco Hci HiN.
  assert (HN : 0 <= N < 2 ^ 16) by apply uint16_range.
  pose proof (AesCtr128_start key inputData outputData blockNumber ctr ctrFunc
                initDecryption w0 f Hf) as IS.
  destruct (AesCtr128_engine key inputData outputData blockNumber ctr ctrFunc
              initDecryption w0 Hw) as (Eb & Ew).
  destruct (AesCtr128_statics key inputData outputData blockNumber ctr ctrFunc
              initDecryption w0) as (_ & _ & Si & _ & _ & _ & _ & Sm & _).
  fold w1 in IS, Eb, Ew, Si, Sm. fold c in IS, Eb. fold N in IS.
  assert (IE : inv_engine c f (KEYH (AES w1)) (mem w0) 0 w1).
  { unfold inv_engine, ctr_at. cbn [Nat.iter]. auto. }
  assert (IB : inv_buffers N inputData outputData c f (KEYH (AES w1)) (mem w0)
                           0 w1).
  { unfold inv_buffers. split; [rewrite Si; cbn; lia|]. split.
    - intros j Hj. lia.
    - intros j _ _. rewrite Sm. reflexivity. }
  destruct (chunk_result N inputData outputData c f (KEYH (AES w1)) (mem w0)
              (ctrCalls w0) w1 HN Ho Hc Hco Hi Hio Hci IS IE IB)
    as (wE & EE & Efin & _ & Eout).
  exists wE. split; [exact EE|]. split; [exact Efin|].
  rewrite (Eout i HiN). unfold keystream, ctr_at. fold ctr_i.
  rewrite Hecho, rev_block_involutive by exact Hword. reflexivity.
Qed.

(** ** The start of a session *)

Lemma AesCtr128_init_engine key inputData outputData blockNumber ctr ctrFunc
    (w : World) :
  AES (AesCtr128 key inputData outputData blockNumber ctr ctrFunc true w) =
  submit4 (mem w) ctr
    (mkAES (Z.lor AES_CTRL_KEYBUFEN AES_CTRL_DATASTART) AES_IEN_DONE
           (Z.ldiff (IF_ (AES w)) AES_IFC_DONE)
           (rev_block (load_block (mem w) key))
           (DATAW (AES w)) (busy (AES w)) (DATAR (AES w))).
Proof.
  unfold AesCtr128. rewrite for_submit.
  destruct w as [n b o i c cf fin m e nv calls].
  destruct e as [ct ie fl k dw bs dr].
  destruct k as [[[k0 k1] k2] k3].
  reflexivity.
Qed.

Lemma AesCtr128_init_nvic key inputData outputData blockNumber ctr ctrFunc
    (w : World) (n : Z) :
  NVIC_ISER (AesCtr128 key inputData outputData blockNumber ctr ctrFunc
                       true w) n =
  if n =? Z.shiftr (uint32 AES_IRQn) 5
  then Z.lor (NVIC_ISER w (Z.shiftr (uint32 AES_IRQn) 5))
             (uint32 (Z.shiftl 1 (Z.land (uint32 AES_IRQn) 31)))
  else NVIC_ISER w n.
Proof.
  unfold AesCtr128. rewrite for_submit.
  destruct w as [nb b o i c cf fin m e nv calls].
  reflexivity.
Qed.

(** X1. Starting a session replaces the whole key: after a call with
    [initDecryption] set the engine key is made of the four words at
    [key], word 3 first and each byte-reversed, whatever key the engine
    held before; [CTRL] and [IEN] hold the values of the source, the
    counter pointer and function are the arguments, and with the [DATA]
    input empty at the call the block submitted is the counter at [ctr]
    in the same convention. *)
Theorem session_start_loads_key key inputData outputData blockNumber ctr
    ctrFunc (w : World) :
  let w' := AesCtr128 key inputData outputData blockNumber ctr ctrFunc
              true w in
  KEYH (AES w') = rev_block (load_block (mem w) key) /\
  CTRL (AES w') = Z.lor AES_CTRL_KEYBUFEN AES_CTRL_DATASTART /\
  IEN (AES w') = AES_IEN_DONE /\
  ctrG w' = ctr /\ ctrFuncG w' = ctrFunc /\
  (DATAW (AES w) = [] ->
   busy (AES w') = Some (rev_block (load_block (mem w) ctr))).
Proof.
  intros w'.
  destruct (AesCtr128_statics key inputData outputData blockNumber ctr ctrFunc
              true w) as (_ & _ & _ & _ & Sc & Sf & _).
  fold w' in Sc, Sf.
  pose proof (AesCtr128_init_engine key inputData outputData blockNumber ctr
                ctrFunc w) as A.
  fold w' in A. clearbody w'. rewrite A.
  set (e := mkAES _ _ _ _ _ _ _).
  destruct (submit4_config (mem w) ctr e) as (Q1 & Q2 & _ & Q4 & _).
  rewrite Q1, Q2, Q4. subst e. cbn [KEYH CTRL IEN].
  repeat split; try assumption.
  intros Hw. rewrite submit4_idle by exact Hw. reflexivity.
Qed.

(** X10. Starting a session enables exactly the AES interrupt: in the
    NVIC set-enable words the bit of interrupt number [AES_IRQn] (bit
    [AES_IRQn mod 32] of word [AES_IRQn / 32]) is set and every other bit
    of every word is as before. *)
Theorem session_start_enables_irq key inputData outputData blockNumber ctr
    ctrFunc (w : World) (n b : Z) :
  let w' := AesCtr128 key inputData outputData blockNumber ctr ctrFunc
              true w in
  0 <= AES_IRQn < 2 ^ 32 -> 0 <= b ->
  Z.testbit (NVIC_ISER w' n) b =
  Z.testbit (NVIC_ISER w n) b ||
  ((n =? AES_IRQn / 32) && (b =? AES_IRQn mod 32)).
Proof.
  intros w' Hirq Hb. subst w'. rewrite AesCtr128_init_nvic.
  rewrite (uint32_small AES_IRQn) by exact Hirq.
  rewrite Z.shiftr_div_pow2 by lia. change (2 ^ 5) with 32.
  change 31 with (Z.ones 5). rewrite Z.land_ones by lia.
  change (2 ^ 5) with 32.
  assert (Hm : 0 <= AES_IRQn mod 32 < 32) by (apply Z.mod_pos_bound; lia).
  rewrite Z.shiftl_1_l.
  assert (Hp : 0 <= 2 ^ (AES_IRQn mod 32) < 2 ^ 32).
  { split; [apply Z.pow_nonneg; lia | apply Z.pow_lt_mono_r; lia]. }
  rewrite uint32_small by exact Hp.
  destruct (Z.eqb_spec n (AES_IRQn / 32)) as [-> | Hne]; cbn [andb].
  - rewrite Z.lor_spec, Z.pow2_bits_eqb by lia.
    f_equal. apply Z.eqb_sym.
  - rewrite orb_false_r. reflexivity.
Qed.

(** ** Polling *)

(** X11. What polling sees: after a call, [AesFinished] is false through
    the first [N] completion events and true from event [N + 1] on, for
    every longer run of events as well: the handler never clears the
    flag, only the next call does. *)
Theorem finished_from_last_event_on key inputData outputData blockNumber
    ctr ctrFunc initDecryption (w0 w : World) (k : nat) :
  let w1 := AesCtr128 key inputData outputData blockNumber ctr ctrFunc
              initDecryption w0 in
  deliver k w1 = Some w ->
  AesFinished w = (uint16 blockNumber <? Z.of_nat k).
Proof.
  intros w1 E.
  destruct (AesCtr128_statics key inputData outputData blockNumber ctr ctrFunc
              initDecryption w0) as (Sn & Sb & _ & _ & _ & _ & Sfin & _).
  fold w1 in Sn, Sb, Sfin.
  pose proof (uint16_range blockNumber) as HN. rewrite <- Sn in *.
  clearbody w1. unfold AesFinished.
  destruct (Z.ltb_spec (numberOfBlocks w1) (Z.of_nat k)) as [Hlt | Hge].
  - apply (deliver_past_count k w1 w E); [exact Sb | exact HN | exact Hlt].
  - destruct (deliver_blocks_inv k w1 w E) as (_ & _ & _ & _ & _ & _ & Rf & _);
      try lia.
    congruence.
Qed.

(** ** A buffer decrypted in two chunks *)

Lemma load_block_frame (m m' : Memory) (p : Z) :
  in_space p 16 -> (forall a, p <= a < p + 16 -> m' a = m a) ->
  load_block m' p = load_block m p.
Proof.
  intros [Hp0 Hp1] Hm. unfold load_block, load. elem_norm.
  rewrite !Hm by lia. reflexivity.
Qed.

(** Memory away from the output buffer and the counter, over a whole
    chunk. *)
Lemma chunk_frame N out c f m0 calls0 (w1 : World) :
  0 <= N < 2 ^ 16 -> in_space out (16 * N) -> in_space c 16 ->
  apart c 16 out (16 * N) ->
  inv_session N out c f m0 calls0 0 w1 ->
  exists wE, deliver (S (Z.to_nat N)) w1 = Some wE /\
    forall a : Z, a < out \/ out + 16 * N <= a -> a < c \/ c + 16 <= a ->
                  mem wE a = mem w1 a.
Proof.
  intros HN Ho Hc Hco IS.
  set (I := fun (j : nat) (w : World) =>
              inv_session N out c f m0 calls0 j w /\
              forall a : Z, a < out \/ out + 16 * N <= a ->
                            a < c \/ c + 16 <= a -> mem w a = mem w1 a).
  destruct (deliver_invariant I (Z.to_nat N)) with (k := Z.to_nat N) (w := w1)
    as (wN & EN & ISN & F); [| lia | |].
  - intros i w Hi (ISi & Fi).
    destruct (step_session N out c f m0 calls0 HN Ho Hc Hco i w)
      as (w' & E & IS'); [lia | exact ISi |].
    exists w'. split; [exact E|]. split; [exact IS'|].
    destruct ISi as (In & Ib & Io & Ic & If & _).
    destruct (event_block_exact w f) as (w2 & E2 & _ & M & _);
      [lia | exact If |].
    rewrite E in E2. injection E2 as <-.
    intros a Ha1 Ha2. rewrite M, Ic, Io.
    destruct Ho as [Ho0 Ho1].
    rewrite combine_mem_frame; [| unfold in_space; lia | lia].
    rewrite store_block_frame; [| exact Hc | exact Ha2].
    apply Fi; assumption.
  - split; [exact IS|]. intros a _ _. reflexivity.
  - destruct (finish_chunk N out c f m0 calls0 w1 wN HN EN ISN)
      as (wF & EF & _ & _ & _ & Mf & _).
    exists wF. split; [exact EF|].
    intros a Ha1 Ha2. rewrite Mf. apply F; assumption.
Qed.

(** X12. Chunking does not show in the output: a session started on the
    first [N1] blocks of a buffer and continued, with [initDecryption]
    false, on the next [N2] blocks produces in every block [j] of the
    [N1 + N2] blocks the keystream of the counter after [j] steps XORed
    with the input block as it was before the first call: the result of
    counter mode over the whole buffer, in place or into a separate
    buffer. *)
Theorem two_chunks_as_one key inputData outputData blockNumber ctr ctrFunc
    initDecryption key2 blockNumber2 ctr2 ctrFunc2 (w0 : World)
    (f : Block -> Block) :
  let w1 := AesCtr128 key inputData outputData blockNumber ctr ctrFunc
              initDecryption w0 in
  let N1 := uint16 blockNumber in
  let N2 := uint16 blockNumber2 in
  let c := ctrG w1 in
  let ctr0 := load_block (mem w0) c in
  ctrFuncG w1 = Some f -> DATAW (AES w0) = [] ->
  in_space inputData (16 * (N1 + N2)) ->
  in_space outputData (16 * (N1 + N2)) -> in_space c 16 ->
  inputData = outputData \/
  apart inputData (16 * (N1 + N2)) outputData (16 * (N1 + N2)) ->
  apart c 16 outputData (16 * (N1 + N2)) ->
  apart c 16 inputData (16 * (N1 + N2)) ->
  exists wF wE,
    deliver (S (Z.to_nat N1)) w1 = Some wF /\
    deliver (S (Z.to_nat N2))
      (AesCtr128 key2 (inputData + 16 * N1) (outputData + 16 * N1)
                 blockNumber2 ctr2 ctrFunc2 false wF) = Some wE /\
    AesFinished wE = true /\
    forall j : nat, Z.of_nat j < N1 + N2 ->
      load_block (mem wE) (outputData + 16 * Z.of_nat j) =
      xor_block (keystream (KEYH (AES w1)) (Nat.iter j f ctr0))
                (load_block (mem w0) (inputData + 16 * Z.of_nat j)).
Proof.
  intros w1 N1 N2 c ctr0 Hf Hw Hi Ho Hc Hio Hco Hci.
  assert (HN1 : 0 <= N1 < 2 ^ 16) by apply uint16_range.
  assert (HN2 : 0 <= N2 < 2 ^ 16) by apply uint16_range.
  destruct Hi as [Hi0 Hi1]. destruct Ho as [Ho0 Ho1].
  pose proof Hc as [Hc0 Hc1].
  unfold apart in Hio, Hco, Hci.
  (* the first chunk *)
  pose proof (AesCtr128_start key inputData outputData blockNumber ctr ctrFunc
                initDecryption w0 f Hf) as IS.
  destruct (AesCtr128_engine key inputData outputData blockNumber ctr ctrFunc
              initDecryption w0 Hw) as (Eb & Ew).
  destruct (AesCtr128_statics key inputData outputData blockNumber ctr ctrFunc
              initDecryption w0) as (_ & _ & Si & _ & _ & _ & _ & Sm & _).
  fold w1 in IS, Eb, Ew, Si, Sm. fold c in IS, Eb. fold N1 in IS.
  set (K := KEYH (AES w1)) in *.
  assert (IE : inv_engine c f K (mem w0) 0 w1).
  { unfold inv_engine, ctr_at. cbn [Nat.iter]. auto. }
  assert (IB : inv_buffers N1 inputData outputData c f K (mem w0) 0 w1).
  { unfold inv_buffers. split; [rewrite Si; cbn; lia|]. split.
    - intros j Hj. lia.
    - intros j _ _. rewrite Sm. reflexivity. }
  clearbody K. clearbody c. clearbody w1. clearbody N1.
  assert (A1 : in_space outputData (16 * N1)) by (unfold in_space; lia).
  assert (A2 : apart c 16 outputData (16 * N1)) by (unfold apart; lia).
  assert (A3 : in_space inputData (16 * N1)) by (unfold in_space; lia).
  assert (A4 : inputData = outputData \/
               apart inputData (16 * N1) outputData (16 * N1))
    by (unfold apart; lia).
  assert (A5 : apart c 16 inputData (16 * N1)) by (unfold apart; lia).
  destruct (chunk_result N1 inputData outputData c f K (mem w0) (ctrCalls w0)
              w1 HN1 A1 Hc A2 A3 A4 A5 IS IE IB)
    as (wF & EF & _ & Fctr & Fout).
  destruct (chunk_end N1 outputData c f K (mem w0) (ctrCalls w0) w1
              HN1 A1 Hc A2 IS IE)
    as (wF' & EF' & _ & _ & Fw & Fk & _ & Fc & Ff & _).
  rewrite EF in EF'. injection EF' as <-.
  destruct (chunk_frame N1 outputData c f (mem w0) (ctrCalls w0) w1
              HN1 A1 Hc A2 IS) as (wF' & EF' & Fframe).
  rewrite EF in EF'. injection EF' as <-.
  rewrite Sm in Fframe.
  (* the second chunk *)
  set (in2 := inputData + 16 * N1). set (out2 := outputData + 16 * N1).
  destruct (AesCtr128_statics key2 in2 out2 blockNumber2 ctr2 ctrFunc2 false
              wF) as (_ & _ & Si2 & _ & Sc2 & Sf2 & _ & Sm2 & _).
  remember (AesCtr128 key2 in2 out2 blockNumber2 ctr2 ctrFunc2 false wF)
    as w2 eqn:Hw2.
  assert (Hf2 : ctrFuncG w2 = Some f) by congruence.
  rewrite Hw2 in Hf2.
  pose proof (AesCtr128_start key2 in2 out2 blockNumber2 ctr2 ctrFunc2 false
                wF f Hf2) as IS2.
  destruct (AesCtr128_engine key2 in2 out2 blockNumber2 ctr2 ctrFunc2 false
              wF Fw) as (Eb2 & Ew2).
  pose proof (AesCtr128_reuse_key key2 in2 out2 blockNumber2 ctr2 ctrFunc2 wF)
    as Ek2.
  rewrite <- Hw2 in IS2, Eb2, Ew2, Ek2. fold N2 in IS2.
  rewrite Sc2, Fc in IS2, Eb2. rewrite Fk in Ek2.
  assert (IE2 : inv_engine c f K (mem wF) 0 w2).
  { unfold inv_engine, ctr_at. cbn [Nat.iter]. auto. }
  assert (IB2 : inv_buffers N2 in2 out2 c f K (mem wF) 0 w2).
  { unfold inv_buffers. split; [rewrite Si2; cbn; lia|]. split.
    - intros j Hj. lia.
    - intros j _ _. rewrite Sm2. reflexivity. }
  clearbody N2. subst in2 out2.
  assert (B1 : in_space (outputData + 16 * N1) (16 * N2))
    by (unfold in_space; lia).
  assert (B2 : apart c 16 (outputData + 16 * N1) (16 * N2))
    by (unfold apart; lia).
  assert (B3 : in_space (inputData + 16 * N1) (16 * N2))
    by (unfold in_space; lia).
  assert (B4 : inputData + 16 * N1 = outputData + 16 * N1 \/
               apart (inputData + 16 * N1) (16 * N2)
                     (outputData + 16 * N1) (16 * N2))
    by (unfold apart; lia).
  assert (B5 : apart c 16 (inputData + 16 * N1) (16 * N2))
    by (unfold apart; lia).
  destruct (chunk_result N2 (inputData + 16 * N1) (outputData + 16 * N1) c f K
              (mem wF) (ctrCalls wF) w2 HN2 B1 Hc B2 B3 B4 B5 IS2 IE2 IB2)
    as (wE & EE & Efin & _ & Eout).
  destruct (chunk_frame N2 (outputData + 16 * N1) c f (mem wF) (ctrCalls wF)
              w2 HN2 B1 Hc B2 IS2) as (wE' & EE' & Eframe).
  rewrite EE in EE'. injection EE' as <-.
  rewrite Sm2 in Eframe.
  exists wF, wE. split; [exact EF|]. split; [rewrite <- Hw2; exact EE|].
  split; [exact Efin|]. clear Hw2. subst ctr0.
  intros j Hj.
  destruct (Z.lt_ge_cases (Z.of_nat j) N1) as [Hlo | Hhi].
  - (* written by the first chunk, untouched by the second *)
    rewrite (load_block_frame (mem wF) (mem wE));
      [| unfold in_space; lia | intros a Ha; apply Eframe; lia].
    apply Fout. exact Hlo.
  - (* written by the second chunk from input the first one left alone *)
    set (i := (j - Z.to_nat N1)%nat).
    assert (Hji : Z.of_nat j = N1 + Z.of_nat i) by (subst i; lia).
    replace (outputData + 16 * Z.of_nat j)
      with (outputData + 16 * N1 + 16 * Z.of_nat i) by lia.
    rewrite (Eout i) by lia.
    unfold ctr_at in Fctr. unfold ctr_at. rewrite Fctr, <- Nat.iter_add.
    replace (i + Z.to_nat N1)%nat with j by (subst i; lia).
    replace (inputData + 16 * N1 + 16 * Z.of_nat i)
      with (inputData + 16 * Z.of_nat j) by lia.
    rewrite (load_block_frame (mem w0) (mem wF));
      [| unfold in_space; lia | intros a Ha; apply Fframe; lia].
    reflexivity.
Qed.

(** ** Round trip *)

Lemma xor_block_involutive (k p : Block) : xor_block k (xor_block k p) = p.
Proof.
  destruct k as [[[k0 k1] k2] k3]. destruct p as [[[p0 p1] p2] p3].
  unfold xor_block.
  rewrite <- !Z.lxor_assoc, !Z.lxor_nilpotent, !Z.lxor_0_l. reflexivity.
Qed.

(** X13. Decryption undoes encryption: run a chunk, then run a second
    chunk with the same engine key, the same counter function and the
    counter memory holding again the first counter value; for every block
    index [i] at which the second chunk's input is the first chunk's
    output, the second chunk's output is the first chunk's input. *)
Theorem ctr_round_trip key inputData outputData blockNumber ctr ctrFunc
    initDecryption (w0 wE : World) key' inputData' outputData' blockNumber'
    ctr' ctrFunc' initDecryption' (w0' : World) (f : Block -> Block)
    (i : nat) :
  let w1 := AesCtr128 key inputData outputData blockNumber ctr ctrFunc
              initDecryption w0 in
  let w1' := AesCtr128 key' inputData' outputData' blockNumber' ctr' ctrFunc'
               initDecryption' w0' in
  let N := uint16 blockNumber in
  ctrFuncG w1 = Some f -> DATAW (AES w0) = [] ->
  placed inputData outputData (ctrG w1) N ->
  deliver (S (Z.to_nat N)) w1 = Some wE ->
  uint16 blockNumber' = N ->
  ctrFuncG w1' = Some f -> DATAW (AES w0') = [] ->
  placed inputData' outputData' (ctrG w1') N ->
  KEYH (AES w1') = KEYH (AES w1) ->
  load_block (mem w0') (ctrG w1') = load_block (mem w0) (ctrG w1) ->
  Z.of_nat i < N ->
  load_block (mem w0') (inputData' + 16 * Z.of_nat i) =
  load_block (mem wE) (outputData + 16 * Z.of_nat i) ->
  exists wE', deliver (S (Z.to_nat N)) w1' = Some wE' /\
    AesFinished wE' = true /\
    load_block (mem wE') (outputData' + 16 * Z.of_nat i) =
    load_block (mem w0) (inputData + 16 * Z.of_nat i).
Proof.
  intros w1 w1' N Hf Hw (Hi & Ho & Hc & Hio & Hco & Hci) EE HN'
         Hf' Hw' (Hi' & Ho' & Hc' & Hio' & Hco' & Hci') HK Hctr HiN Hin.
  assert (HN : 0 <= N < 2 ^ 16) by apply uint16_range.
  (* the first run *)
  pose proof (AesCtr128_start key inputData outputData blockNumber ctr ctrFunc
                initDecryption w0 f Hf) as IS.
  destruct (AesCtr128_engine key inputData outputData blockNumber ctr ctrFunc
              initDecryption w0 Hw) as (Eb & Ew).
  destruct (AesCtr128_statics key inputData outputData blockNumber ctr ctrFunc
              initDecryption w0) as (_ & _ & Si & _ & _ & _ & _ & Sm & _).
  fold w1 in IS, Eb, Ew, Si, Sm. fold N in IS.
  set (K := KEYH (AES w1)) in *. set (c := ctrG w1) in *.
  assert (IE : inv_engine c f K (mem w0) 0 w1).
  { unfold inv_engine, ctr_at. cbn [Nat.iter]. auto. }
  assert (IB : inv_buffers N inputData outputData c f K (mem w0) 0 w1).
  { unfold inv_buffers. split; [rewrite Si; cbn; lia|]. split.
    - intros j Hj. lia.
    - intros j _ _. rewrite Sm. reflexivity. }
  (* the second run *)
  pose proof (AesCtr128_start key' inputData' outputData' blockNumber' ctr'
                ctrFunc' initDecryption' w0' f Hf') as IS'.
  destruct (AesCtr128_engine key' inputData' outputData' blockNumber' ctr'
              ctrFunc' initDecryption' w0' Hw') as (Eb' & Ew').
  destruct (AesCtr128_statics key' inputData' outputData' blockNumber' ctr'
              ctrFunc' initDecryption' w0')
    as (_ & _ & Si' & _ & _ & _ & _ & Sm' & _).
  fold w1' in IS', Eb', Ew', Si', Sm'. rewrite HN' in IS'.
  set (c' := ctrG w1') in *.
  assert (IE' : inv_engine c' f K (mem w0') 0 w1').
  { unfold inv_engine, ctr_at. cbn [Nat.iter]. auto. }
  assert (IB' : inv_buffers N inputData' outputData' c' f K (mem w0') 0 w1').
  { unfold inv_buffers. split; [rewrite Si'; cbn; lia|]. split.
    - intros j Hj. lia.
    - intros j _ _. rewrite Sm'. reflexivity. }
  clearbody K c c'. clearbody w1 w1'. clearbody N.
  destruct (chunk_result N inputData outputData c f K (mem w0) (ctrCalls w0)
              w1 HN Ho Hc Hco Hi Hio Hci IS IE IB)
    as (wE0 & EE0 & _ & _ & Eout).
  rewrite EE in EE0. injection EE0 as <-.
  destruct (chunk_result N inputData' outputData' c' f K (mem w0')
              (ctrCalls w0') w1' HN Ho' Hc' Hco' Hi' Hio' Hci' IS' IE' IB')
    as (wE' & EE' & Efin' & _ & Eout').
  exists wE'. split; [exact EE'|]. split; [exact Efin'|].
  rewrite (Eout' i HiN), Hin, (Eout i HiN).
  unfold ctr_at. rewrite Hctr. apply xor_block_involutive.
Qed.

End Facts.

(** ** The claims on the sample session *)

Import Sample.

Ltac side :=
  first [ reflexivity | lia
        | unfold in_space, apart; vm_compute; intuition discriminate ].

Example REV_bytes : __REV 0x11223344 = 0x44332211.
Proof. reflexivity. Qed.

(** The end-to-end scenario of the specification, section 8: with an
    engine that echoes its input the two reversals cancel, and chunk [i]
    of a session XORs its input with the counter after [i] steps. *)
Example three_chunks_echo :
  three_chunks =
  Some (xor_block (load_block ram 2048) (load_block ram 512),
        xor_block (incr (load_block ram 2048)) (load_block ram 528),
        xor_block (incr (incr (load_block ram 2048))) (load_block ram 544)).
Proof. vm_compute. reflexivity. Qed.

Lemma tuple4_eq {A B C D : Type} (a a' : A) (b b' : B) (c c' : C) (d d' : D) :
  (a, b, c, d) = (a', b', c', d') -> a = a' /\ b = b' /\ c = c' /\ d = d'.
Proof. intros E. injection E as Ea Eb Ec Ed. auto. Qed.

(** Reads a run of the sample session through an observation of its last
    state, so that states are never compared as a whole. *)
Ltac observed H w E :=
  match type of H with
  | option_map _ ?run = Some _ =>
      destruct run as [w|] eqn:E;
      [cbn [option_map] in H; apply some_eq in H | discriminate H]
  end.

(** C1. CTR combine correctness is what the code misses for a block count
    of 65537, with buffers that have room for every block: the count is
    stored as 1, the chunk finishes at the second completion event with
    the engine idle, block 0 is combined, and output block 1 still holds
    its old contents, which are not the keystream of the counter after
    one step XORed with input block 1. *)
Lemma C1_truncated_chunk :
  placed 1048576 3145728 2048 65537 /\
  numberOfBlocks long_chunk = 1 /\
  exists wF, deliver 2 long_chunk = Some wF /\ AesFinished wF = true /\
    busy (AES wF) = None /\
    load_block (mem wF) (3145728 + 16 * 0) =
    xor_block (rev_block (transform (KEYH (AES long_chunk))
                 (rev_block (load_block ram 2048))))
              (load_block ram (1048576 + 16 * 0)) /\
    load_block (mem wF) (3145728 + 16 * 1) =
    load_block ram (3145728 + 16 * 1) /\
    load_block (mem wF) (3145728 + 16 * 1) <>
    xor_block (rev_block (transform (KEYH (AES long_chunk))
                 (rev_block (Nat.iter 1 incr (load_block ram 2048)))))
              (load_block ram (1048576 + 16 * 1)).
Proof.
  split; [unfold placed, in_space, apart; vm_compute; intuition discriminate|].
  split; [reflexivity|].
  assert (H : option_map
                (fun w => (AesFinished w, busy (AES w),
                           load_block (mem w) (3145728 + 16 * 0),
                           load_block (mem w) (3145728 + 16 * 1)))
                (deliver 2 long_chunk) =
              Some (true, None,
                    xor_block (rev_block (transform (KEYH (AES long_chunk))
                                 (rev_block (load_block ram 2048))))
                              (load_block ram (1048576 + 16 * 0)),
                    load_block ram (3145728 + 16 * 1)))
    by (vm_compute; reflexivity).
  observed H wF E.
  apply tuple4_eq in H. destruct H as (Hfin & Hbusy & Hb0 & Hb1).
  exists wF. split; [reflexivity|]. split; [exact Hfin|].
  split; [exact Hbusy|]. split; [exact Hb0|]. split; [exact Hb1|].
  rewrite Hb1. vm_compute. discriminate.
Qed.

(** C2 on a chunk of two blocks: finished at the third event. *)
Lemma C2_witness :
  1 <= 2 <= 65535 /\ ctrFuncG (started 2) = Some incr /\
  exists w, deliver 3 (started 2) = Some w /\ AesFinished w = true /\
            blockIndex w = 3.
Proof.
  split; [lia|]. split; [reflexivity|].
  apply (C2_completion_count 256 512 1024 2 2048 (Some incr) true reset incr);
    [lia | reflexivity].
Defined.

(** C2 as stated fails for one block: after exactly one completion event
    [blockIndex] is 1 and [AesFinished] is still false. *)
Lemma C2_counterexample :
  exists w, deliver 1 (started 1) = Some w /\ AesFinished w = false /\
            blockIndex w = 1.
Proof.
  assert (H : option_map (fun w => (AesFinished w, blockIndex w))
                (deliver 1 (started 1)) = Some (false, 1))
    by (vm_compute; reflexivity).
  observed H w E. injection H as Hfin Hb.
  exists w. auto.
Qed.

(** C3. The count of counter calls is what the code misses for a block
    count of 65537, with buffers that have room for every block: the
    chunk is unfinished after one completion event and finished after
    two, with the engine idle, one call of the counter function and the
    counter stepped once, not 65537 times. *)
Lemma C3_truncated_chunk :
  placed 1048576 3145728 2048 65537 /\
  numberOfBlocks long_chunk = 1 /\ ctrCalls long_chunk = 0%nat /\
  exists w1 wF,
    deliver 1 long_chunk = Some w1 /\ AesFinished w1 = false /\
    deliver 2 long_chunk = Some wF /\ AesFinished wF = true /\
    busy (AES wF) = None /\
    ctrCalls wF = 1%nat /\ ctrCalls wF <> Z.to_nat 65537 /\
    load_block (mem wF) 2048 = incr (load_block ram 2048) /\
    load_block (mem wF) 2048 <>
    Nat.iter (Z.to_nat 65537) incr (load_block ram 2048).
Proof.
  split; [unfold placed, in_space, apart; vm_compute; intuition discriminate|].
  split; [reflexivity|]. split; [reflexivity|].
  assert (H1 : option_map AesFinished (deliver 1 long_chunk) = Some false)
    by (vm_compute; reflexivity).
  assert (H2 : option_map
                 (fun w => (AesFinished w, busy (AES w), ctrCalls w,
                            load_block (mem w) 2048))
                 (deliver 2 long_chunk) =
               Some (true, None, 1%nat, incr (load_block ram 2048)))
    by (vm_compute; reflexivity).
  observed H1 w1 E1. observed H2 wF E2.
  rename H1 into Hfin1.
  apply tuple4_eq in H2. destruct H2 as (Hfin & Hbusy & Hcalls & Hctr).
  exists w1, wF. rewrite Hcalls, Hctr.
  repeat split; try assumption; try lia.
  vm_compute. discriminate.
Qed.

(** C4 on a chunk of two blocks: after one event, and after the third,
    which finishes it. *)
Lemma C4_witness :
  (exists w, deliver 1 (started 2) = Some w /\ aesFinished w = false /\
     blockIndex w = 1 /\ blockIndex w <= numberOfBlocks w /\
     inputDataG w = elem 512 (4 * blockIndex w) /\
     outputDataG w = elem 1024 (4 * blockIndex w)) /\
  (exists w, deliver 3 (started 2) = Some w /\ numberOfBlocks w = 2 /\
     aesFinished w = true /\ busy (AES w) = None /\ blockIndex w = 3 /\
     inputDataG w = elem 512 (4 * 2) /\ outputDataG w = elem 1024 (4 * 2)).
Proof.
  split.
  - assert (H : option_map aesFinished (deliver 1 (started 2)) = Some false)
      by (vm_compute; reflexivity).
    observed H w E. rename H into Hfin.
    exists w. split; [reflexivity|]. split; [exact Hfin|].
    apply (C4_stream_invariant 256 512 1024 2 2048 (Some incr) true reset w 1);
      [lia | lia | exact E | exact Hfin].
  - assert (H : option_map numberOfBlocks (deliver 3 (started 2)) = Some 2)
      by (vm_compute; reflexivity).
    observed H w E. rename H into Hn.
    exists w. split; [reflexivity|]. split; [exact Hn|].
    destruct (C4_stream_invariant 256 512 1024 2 2048 (Some incr) true reset
                w 3) as (_ & _ & _ & _ & _ & _ & Hlast);
      [lia | lia | exact E |].
    rewrite Hn in Hlast.
    destruct Hlast as (Hfin & Hbusy & Hb & _ & Hin & Hout); [reflexivity|].
    split; [exact Hfin|]. split; [exact Hbusy|].
    split; [apply Hb; lia|]. split; assumption.
Defined.

(** C4 as stated fails for one block: the second event, which sets the
    flag, leaves [blockIndex] at 2 with [numberOfBlocks] at 1. *)
Lemma C4_counterexample :
  exists w, deliver 2 (started 1) = Some w /\
            ~ blockIndex w <= numberOfBlocks w.
Proof.
  assert (H : option_map (fun w => (blockIndex w, numberOfBlocks w))
                (deliver 2 (started 1)) = Some (2, 1))
    by (vm_compute; reflexivity).
  observed H w E. injection H as Hb Hn.
  exists w. split; [reflexivity|]. lia.
Qed.

(** C5 on a zero-block chunk, where the first handler run is the last. *)
Lemma C5_witness :
  numberOfBlocks (started 0) <= blockIndex (started 0) /\
  exists w, AES_IRQHandler (started 0) = Some w /\ aesFinished w = true /\
    blockIndex w = 1 /\ ctrCalls w = 0%nat.
Proof.
  assert (Hge : numberOfBlocks (started 0) <= blockIndex (started 0))
    by (vm_compute; discriminate).
  split; [exact Hge|].
  eexists. split; [apply (C5_final_event_frame (started 0) Hge)|].
  split; [reflexivity|]. split; vm_compute; reflexivity.
Defined.

(** C7 on the sample session with one event. *)
Lemma C7_witness :
  (1 <= 1)%nat /\ DATAW (AES reset) = [] /\
  busy (AES (started 0)) = Some (rev_block (load_block ram 2048)) /\
  exists w, deliver 1 (started 0) = Some w /\ AesFinished w = true /\
    ctrCalls w = 0%nat /\ mem w = ram /\ busy (AES w) = None /\
    DATAR (AES w) =
    block_words (transform (KEYH (AES (started 0)))
                           (rev_block (load_block ram 2048))).
Proof.
  split; [lia|]. split; [reflexivity|].
  destruct (C7_zero_blocks 256 512 1024 2048 (Some incr) true reset 1)
    as (_ & Hsub & w & E & Hfin & Hc & Hm & _ & Hb & Hr); [lia|].
  split; [apply Hsub; reflexivity|].
  exists w. split; [exact E|]. split; [exact Hfin|]. split; [exact Hc|].
  split; [exact Hm|]. split; [exact Hb|]. apply Hr. reflexivity.
Defined.

(** C8 as stated fails: from reset, with no session, a call with
    [initDecryption] false is carried out and changes the stream state. *)
Lemma C8_counterexample :
  StreamState (AesCtr128 0 512 1024 3 0 None false reset) <>
  StreamState reset.
Proof. vm_compute. discriminate. Qed.

(** C8 on two calls from reset, one with [initDecryption] false and no
    session to reuse, one that starts the sample session: each leaves the
    counter it points to as the pending block. *)
Lemma C8_witness :
  DATAW (AES reset) = [] /\
  busy (AES (AesCtr128 0 512 1024 3 0 None false reset)) =
  Some (rev_block (load_block ram (ctrG reset))) /\
  busy (AES (started 2)) = Some (rev_block (load_block ram 2048)).
Proof.
  split; [reflexivity|]. split.
  - apply (C8_no_error_contract 0 512 1024 3 0 None false reset). reflexivity.
  - apply (C8_no_error_contract 256 512 1024 2 2048 (Some incr) true reset).
    reflexivity.
Defined.

(** C9 for a block count of 65539: three blocks are processed. *)
Lemma C9_witness :
  ctrFuncG (started 65539) = Some incr /\
  numberOfBlocks (started 65539) = 3 /\
  exists wF, deliver 4 (started 65539) = Some wF /\ AesFinished wF = true /\
    ctrCalls wF = 3%nat.
Proof.
  split; [reflexivity|]. split; [reflexivity|].
  destruct (C9_block_count_truncation 256 512 1024 65539 2048 (Some incr)
              true reset) as (_ & _ & _ & Hrun).
  destruct (Hrun incr eq_refl) as (_ & wF & E & Hfin & Hc & _).
  exists wF. auto.
Defined.

(** ** The further properties on the sample session *)

(** Closes the premises of a theorem applied to the sample session and
    leaves the statement that remains about its run. *)
Ltac premise :=
  lazymatch goal with
  | |- ex _ => idtac
  | |- deliver _ _ = _ => idtac
  | |- _ => side
  end.

(** X8 on a chunk of two blocks run to its end. *)
Lemma events_keep_configuration_witness :
  exists w', deliver 3 (started 2) = Some w' /\
    KEYH (AES w') = KEYH (AES (started 2)) /\
    ctrG w' = ctrG (started 2) /\
    numberOfBlocks w' = numberOfBlocks (started 2).
Proof.
  assert (H : option_map aesFinished (deliver 3 (started 2)) = Some true)
    by (vm_compute; reflexivity).
  observed H w' E. exists w'. split; [reflexivity|].
  destruct (events_keep_configuration 3 (started 2) w' E)
    as (K1 & _ & _ & _ & K5 & _ & K7).
  auto.
Defined.

(** X4 from reset: three blocks, no session. *)
Lemma null_counter_function_faults_witness :
  ctrFuncG (AesCtr128 0 512 1024 3 0 None false reset) = None /\
  deliver 1 (AesCtr128 0 512 1024 3 0 None false reset) = None.
Proof.
  split; [reflexivity|].
  apply (null_counter_function_faults 0 512 1024 3 0 None false reset 1);
    [reflexivity | vm_compute; discriminate | lia].
Defined.

(** X5 on a zero-block chunk and two events. *)
Lemma stray_events_only_count_witness :
  numberOfBlocks (started 0) <= blockIndex (started 0) /\
  exists w', deliver 2 (started 0) = Some w' /\
    blockIndex w' = uint16 (blockIndex (started 0) + Z.of_nat 2) /\
    aesFinished w' = true.
Proof.
  assert (Hge : numberOfBlocks (started 0) <= blockIndex (started 0))
    by (vm_compute; discriminate).
  split; [exact Hge|].
  destruct (stray_events_only_count 2 (started 0)) as (w' & E & Rb & Rf & _);
    [exact Hge | vm_compute; intuition discriminate | lia
    | vm_compute; discriminate |].
  exists w'. auto.
Defined.

(** X6 on a one-block chunk whose index stands at 1. *)
Lemma index_wrap_resumes_witness :
  1 <= numberOfBlocks (set_blockIndex 1 (started 1)) /\
  exists w0 w1,
    deliver (Z.to_nat (2 ^ 16 - 1)) (set_blockIndex 1 (started 1)) =
    Some w0 /\
    blockIndex w0 = 0 /\ completion_event w0 = Some w1 /\
    aesFinished w1 = true /\ blockIndex w1 = 1.
Proof.
  split; [vm_compute; discriminate|].
  destruct (index_wrap_resumes (set_blockIndex 1 (started 1)) incr)
    as (w0 & w1 & E & Hb & _ & E1 & Hf & Hb1 & _);
    [vm_compute; discriminate | vm_compute; intuition discriminate
    | vm_compute; discriminate | reflexivity |].
  exists w0, w1. auto.
Defined.

(** X7 on a chunk of two blocks run to its end. *)
Lemma chunk_writes_stay_inside_witness :
  ctrFuncG (started 2) = Some incr /\
  exists w, deliver 3 (started 2) = Some w /\
    forall a : Z,
      a + 4 <= 1024 \/ 1024 + 16 * uint16 2 <= a ->
      a + 4 <= ctrG (started 2) \/ ctrG (started 2) + 16 <= a ->
      mem w a = mem reset a.
Proof.
  split; [reflexivity|].
  apply (chunk_writes_stay_inside 256 512 1024 2 2048 (Some incr) true reset
           incr 3); side.
Defined.

(** X3 on a chunk of two blocks. *)
Lemma finished_chunk_leaves_engine_idle_witness :
  DATAW (AES reset) = [] /\
  exists wF, deliver 3 (started 2) = Some wF /\ AesFinished wF = true /\
    busy (AES wF) = None /\ DATAW (AES wF) = [].
Proof.
  split; [reflexivity|].
  destruct (finished_chunk_leaves_engine_idle 256 512 1024 2 2048 (Some incr)
              true reset incr) as (wF & E & R1 & R2 & R3 & _); premise.
  exists wF. auto.
Defined.

(** X2: two blocks, then one more block from the next addresses. *)
Lemma next_chunk_continues_counter_witness :
  exists wF wE,
    deliver 3 (started 2) = Some wF /\
    deliver 2 (AesCtr128 0 544 1056 1 0 None false wF) = Some wE /\
    AesFinished wE = true /\
    load_block (mem wE) 2048 = Nat.iter 3 incr (load_block ram 2048).
Proof.
  assert (H : option_map aesFinished (deliver 3 (started 2)) = Some true)
    by (vm_compute; reflexivity).
  observed H wF E.
  destruct (next_chunk_continues_counter 256 512 1024 2 2048 (Some incr) true
              0 544 1056 1 0 None reset wF incr 0)
    as (wE & EE & Efin & _ & Ectr); premise; try exact E.
  exists wF, wE. auto.
Defined.

(** X9 on the echo engine. *)
Lemma echo_engine_xors_counter_witness :
  (forall k b : Block, @transform echo_device k b = b) /\
  exists wE,
    @deliver echo_device 3
      (@AesCtr128 echo_device 256 512 1024 2 2048 (Some incr) true reset) =
    Some wE /\
    load_block (mem wE) (1024 + 16 * Z.of_nat 1) =
    xor_block (Nat.iter 1 incr (load_block ram 2048))
              (load_block ram (512 + 16 * Z.of_nat 1)).
Proof.
  split; [reflexivity|].
  destruct (@echo_engine_xors_counter echo_device 256 512 1024 2 2048
              (Some incr) true reset incr 1)
    as (wE & EE & _ & Eout); premise.
  exists wE. split; [exact EE | exact Eout].
Defined.

(** X10 on the sample device, interrupt 36: bit 4 of word 1. *)
Lemma session_start_enables_irq_witness :
  0 <= @AES_IRQn device < 2 ^ 32 /\
  Z.testbit (NVIC_ISER (started 2) 1) 4 = true /\
  Z.testbit (NVIC_ISER (started 2) 1) 5 = Z.testbit (NVIC_ISER reset 1) 5.
Proof.
  split; [vm_compute; intuition discriminate|]. unfold started. split.
  - rewrite (session_start_enables_irq 256 512 1024 2 2048 (Some incr) reset
               1 4); [reflexivity | vm_compute; intuition discriminate | lia].
  - rewrite (session_start_enables_irq 256 512 1024 2 2048 (Some incr) reset
               1 5); [reflexivity | vm_compute; intuition discriminate | lia].
Defined.

(** X11 on a chunk of two blocks: false after two events, true after
    three. *)
Lemma finished_from_last_event_on_witness :
  exists w2 w3,
    deliver 2 (started 2) = Some w2 /\ AesFinished w2 = false /\
    deliver 3 (started 2) = Some w3 /\ AesFinished w3 = true.
Proof.
  assert (H2 : option_map blockIndex (deliver 2 (started 2)) = Some 2)
    by (vm_compute; reflexivity).
  assert (H3 : option_map blockIndex (deliver 3 (started 2)) = Some 3)
    by (vm_compute; reflexivity).
  observed H2 w2 E2. observed H3 w3 E3.
  exists w2, w3. split; [reflexivity|]. split.
  - rewrite (finished_from_last_event_on 256 512 1024 2 2048 (Some incr) true
               reset w2 2 E2). reflexivity.
  - split; [reflexivity|].
    rewrite (finished_from_last_event_on 256 512 1024 2 2048 (Some incr) true
               reset w3 3 E3). reflexivity.
Defined.

(** X12 in place: two blocks at 0x200, then three more behind them. *)
Lemma two_chunks_as_one_witness :
  ctrFuncG (AesCtr128 256 512 512 2 2048 (Some incr) true reset) = Some incr /\
  exists wF wE,
    deliver 3 (AesCtr128 256 512 512 2 2048 (Some incr) true reset) =
    Some wF /\
    deliver 4 (AesCtr128 0 (512 + 16 * uint16 2) (512 + 16 * uint16 2) 3 0
                         None false wF) = Some wE /\
    AesFinished wE = true.
Proof.
  split; [reflexivity|].
  destruct (two_chunks_as_one 256 512 512 2 2048 (Some incr) true 0 3 0 None
              reset incr) as (wF & wE & EF & EE & Efin & _); premise.
  exists wF, wE. auto.
Defined.

(** X13: the two blocks the sample session wrote at 0x400, run again
    from the first counter value into 0x1000, give back block 1 of the
    input. *)
Lemma ctr_round_trip_witness :
  deliver 3 (started 2) = Some finished2 /\
  exists wE',
    deliver 3 (AesCtr128 256 1024 4096 2 2048 (Some incr) true rewound) =
    Some wE' /\
    load_block (mem wE') (4096 + 16 * Z.of_nat 1) =
    load_block (mem reset) (512 + 16 * Z.of_nat 1).
Proof.
  assert (E : deliver 3 (started 2) = Some finished2).
  { assert (H : option_map aesFinished (deliver 3 (started 2)) = Some true)
      by (vm_compute; reflexivity).
    unfold finished2. destruct (deliver 3 (started 2)) as [w|];
      [reflexivity | discriminate H]. }
  split; [exact E|].
  destruct (ctr_round_trip 256 512 1024 2 2048 (Some incr) true reset finished2
              256 1024 4096 2 2048 (Some incr) true rewound incr 1)
    as (wE' & EE' & _ & Eout);
    [ reflexivity | reflexivity
    | clear; unfold placed, in_space, apart; vm_compute;
      intuition discriminate
    | exact E | reflexivity | reflexivity
    | vm_compute; reflexivity
    | clear; unfold placed, in_space, apart; vm_compute;
      intuition discriminate
    | vm_compute; reflexivity | vm_compute; reflexivity
    | vm_compute; reflexivity | vm_compute; reflexivity | ].
  exists wE'. split; [exact EE' | exact Eout].
Defined.

(** X1 on the sample session: key from 0x100, counter from 0x800. *)
Lemma session_start_loads_key_witness :
  DATAW (AES reset) = [] /\
  KEYH (AES (started 2)) = rev_block (load_block (mem reset) 256) /\
  busy (AES (started 2)) = Some (rev_block (load_block (mem reset) 2048)).
Proof.
  split; [reflexivity|].
  destruct (session_start_loads_key 256 512 1024 2 2048 (Some incr) reset)
    as (K & _ & _ & _ & _ & B).
  split; [exact K | exact (B eq_refl)].
Defined.

(** X14 on two chunks of two blocks, block 1 after all three events: one
    with separate buffers, one decrypting in place. *)
Lemma ctr_combine_stored_count_witness :
  Z.of_nat 1 < uint16 2 /\
  (exists wk, deliver 3 (started 2) = Some wk /\
     load_block (mem wk) (1024 + 16 * Z.of_nat 1) =
     xor_block (rev_block (transform (KEYH (AES (started 2)))
                  (rev_block (Nat.iter 1 incr (load_block ram 2048)))))
               (load_block ram (512 + 16 * Z.of_nat 1))) /\
  (exists wk,
     deliver 3 (AesCtr128 256 512 512 2 2048 (Some incr) true reset) =
     Some wk /\
     load_block (mem wk) (512 + 16 * Z.of_nat 1) =
     xor_block (rev_block (transform
                  (KEYH (AES (AesCtr128 256 512 512 2 2048 (Some incr) true
                                        reset)))
                  (rev_block (Nat.iter 1 incr (load_block ram 2048)))))
               (load_block ram (512 + 16 * Z.of_nat 1))).
Proof.
  split; [vm_compute; reflexivity|]. split.
  - apply (ctr_combine_stored_count 256 512 1024 2 2048 (Some incr) true
             reset incr 1); side.
  - apply (ctr_combine_stored_count 256 512 512 2 2048 (Some incr) true
             reset incr 1); side.
Defined.

(** X15 on a chunk of two blocks: two calls, counter stepped twice. *)
Lemma counter_calls_stored_count_witness :
  ctrFuncG (started 2) = Some incr /\
  exists wF, deliver 3 (started 2) = Some wF /\ AesFinished wF = true /\
    ctrCalls wF = 2%nat /\
    load_block (mem wF) 2048 = incr (incr (load_block ram 2048)).
Proof.
  split; [reflexivity|].
  apply (counter_calls_stored_count 256 512 1024 2 2048 (Some incr) true
           reset incr); side.
Defined.
